(** * The PowerTraxx service adapter of tapiriik

    A shallow embedding of [tapiriik/services/PowerTraxx/powertraxx.py]:
    the OAuth token handling ([_getAuthHeaders], [_getTokenFromResponse]),
    the activity list and detail download, the two upload encodings and
    the small helpers they use, followed by the properties of the
    specification that were checked against them.

    Conventions.
    - Python values that arrive as JSON or that are stored in dynamically
      typed attributes are values of [pyval]; Python's truth test is
      [truthy].  Numbers are rationals: floating point rounding is not
      modelled.
    - A [datetime] is an integer number of microseconds since the epoch
      (UTC); a [timedelta] is an integer number of microseconds.
    - Everything that touches the clock, the token cache, the stored
      service records or the network runs in the monad [M], a state
      monad over [World] with Python exceptions as failures. *)

From Stdlib Require Import ZArith QArith Qround String List Lia.
From stdpp Require Import gmap strings pretty.
Import ListNotations.

Local Open Scope string_scope.
Local Open Scope Z_scope.

(** ** Python values *)

Set Warnings "-register-all".

Inductive pyval : Type :=
| VNone
| VBool (b : bool)
| VNum (q : Q)
| VStr (s : string)
| VList (l : list pyval)
| VDict (kv : list (string * pyval)).

(** [bool(v)]: None, False, zero and empty containers are false. *)
Definition truthy (v : pyval) : bool :=
  match v with
  | VNone => false
  | VBool b => b
  | VNum q => negb (Qeq_bool q 0)
  | VStr s => match s with EmptyString => false | _ => true end
  | VList l => match l with [] => false | _ => true end
  | VDict kv => match kv with [] => false | _ => true end
  end.

(** [v is not None] *)
Definition is_not_None (v : pyval) : bool :=
  match v with VNone => false | _ => true end.

(** Lookup in a dict literal or a decoded JSON object, first binding of
    the key. *)
Fixpoint assoc {A B : Type} (eqb : A -> A -> bool) (k : A) (l : list (A * B)) : option B :=
  match l with
  | [] => None
  | (k', v) :: rest => if eqb k k' then Some v else assoc eqb k rest
  end.

(** The numeric reading of a value in arithmetic: [bool] is a subclass
    of [int] in Python. *)
Definition as_number (v : pyval) : option Q :=
  match v with
  | VNum q => Some q
  | VBool true => Some 1%Q
  | VBool false => Some 0%Q
  | _ => None
  end.

(** ** Exceptions *)

Module UserExceptionType.
Inductive t : Set := Authorization | AccountExpired.
End UserExceptionType.

Record UserException : Set := mkUserException {
  ue_type : UserExceptionType.t;
  intervention_required : bool
}.

Record APIException : Set := mkAPIException {
  message : string;
  block : bool;
  user_exception : option UserException
}.

(** Modelled from the spec: the class [APIException] of
    [tapiriik.services.api] is not part of the sources at hand.  An
    exception raised with a message only is the generic remote-service
    failure, which neither blocks the account nor asks the user to
    intervene; [block] and [user_exception] are set only where the
    raising code passes them. *)
Definition APIException_ (msg : string) : APIException :=
  {| message := msg; block := false; user_exception := None |}.

Inductive exn : Set :=
| APIError (e : APIException)
| KeyError (key : string)
| TypeError
| ValueError
| AttributeError (attr : string)
| HTTPError (status : Z)
| ConnectionError.

(** ** Time *)

Definition datetime := Z.
Definition timedelta := Z.

(** Round to the nearest integer, ties to even. *)
Definition round_half_even (q : Q) : Z :=
  let f := Qfloor q in
  match Qcompare (q - inject_Z f) (1 # 2) with
  | Lt => f
  | Gt => f + 1
  | Eq => if Z.even f then f else f + 1
  end.

(** [timedelta(seconds=q)], rounded to the microsecond. *)
Definition timedelta_seconds (q : Q) : timedelta :=
  round_half_even (q * inject_Z 1000000).

(** [timedelta(minutes=n)] *)
Definition timedelta_minutes (n : Z) : timedelta := n * 60 * 1000000.

(** [d.total_seconds()] *)
Definition total_seconds (d : timedelta) : Q := d # 1000000.

(** ** The interchange model, as far as the adapter uses it *)

(** The activity types of the interchange model.  The adapter names
    twelve of them in its two tables; the enumeration has further
    members (Gym, Rowing, Wheelchair and others), which an activity
    that comes from another service can have: [Unlisted name] is the
    member of that name, for a name other than the twelve. *)
Module ActivityType.
Inductive t : Set :=
| Running | Cycling | MountainBiking | Walking | Hiking
| Snowboarding | DownhillSkiing | CrossCountrySkiing | Skating
| Swimming | Elliptical | Other
| Unlisted (name : string).

Definition eqb (a b : t) : bool :=
  match a, b with
  | Running, Running | Cycling, Cycling | MountainBiking, MountainBiking
  | Walking, Walking | Hiking, Hiking | Snowboarding, Snowboarding
  | DownhillSkiing, DownhillSkiing
  | CrossCountrySkiing, CrossCountrySkiing | Skating, Skating
  | Swimming, Swimming | Elliptical, Elliptical | Other, Other => true
  | Unlisted x, Unlisted y => String.eqb x y
  | _, _ => false
  end.
End ActivityType.

Module WaypointType.
Inductive t : Set := Start | Regular | Pause | Resume | End_.

Definition is_Pause (x : t) : bool :=
  match x with Pause => true | _ => false end.
End WaypointType.

Module ActivityStatisticUnit.
Inductive t : Set := Seconds | Meters | OtherUnit (name : string).
End ActivityStatisticUnit.

Record ActivityStatistic : Type := mkStat {
  Units : ActivityStatisticUnit.t;
  Value : pyval
}.

Record ActivityStatistics : Type := mkStats {
  Distance : option ActivityStatistic;
  TimerTime : ActivityStatistic;
  MovingTime : ActivityStatistic
}.

Record Location : Type := mkLocation {
  Latitude : pyval;
  Longitude : pyval;
  Altitude : pyval
}.

Record Waypoint : Type := mkWaypoint {
  Timestamp : option datetime;
  wp_Type : WaypointType.t;
  wp_Location : option Location;
  HR : pyval;
  Speed : pyval;
  wp_Distance : pyval;
  Cadence : pyval;
  RunCadence : pyval;
  Power : pyval
}.

Record Lap : Type := mkLap {
  lap_Stats : ActivityStatistics;
  lap_StartTime : datetime;
  lap_EndTime : datetime;
  Waypoints : list Waypoint
}.

Record Activity : Type := mkActivity {
  ServiceData : list (string * pyval);
  Name : pyval;
  Notes : pyval;
  act_Type : ActivityType.t;
  StartTime : datetime;
  EndTime : datetime;
  Private : bool;
  GPS : pyval;
  Stationary : pyval;
  Stats : ActivityStatistics;
  Laps : list Lap
}.

(** [activity.GetFlatWaypoints()]: the waypoints of all laps, in order. *)
Definition GetFlatWaypoints (a : Activity) : list Waypoint :=
  concat (map Waypoints (Laps a)).

(** [activity.CountTotalWaypoints()] *)
Definition CountTotalWaypoints (a : Activity) : nat :=
  fold_right (fun l n => (length (Waypoints l) + n)%nat) 0%nat (Laps a).

(** ** The world the adapter runs in *)

(** The dict built by [_getTokenFromResponse], which is also what a
    service record keeps as its [Authorization]. *)
Record TokenItem : Type := mkTokenItem {
  AccessToken : pyval;
  RefreshToken : pyval;
  ExpirationDate : datetime
}.

Record ServiceRecord : Type := mkServiceRecord {
  ExternalID : string;
  Authorization : TokenItem
}.

Inductive http_method : Set := GET | POST | DELETE.

Record Request : Type := mkRequest {
  method : http_method;
  url : string;
  headers : list (string * string);
  data : pyval
}.

(** A response as the adapter reads it: the status, the raw body and
    the decoded body, [None] when the body is not JSON. *)
Record Response : Type := mkResponse {
  status_code : Z;
  text : string;
  json : option pyval
}.

(** The clock, the process-wide token cache (each entry with the time
    it was written), the stored service records, the requests sent so
    far and what the provider is going to answer, each answer with the
    time that passes until it arrives. *)
Record World : Type := mkWorld {
  now : datetime;
  tokenCache : gmap string (TokenItem * datetime);
  serviceRecords : gmap string TokenItem;
  sent : list Request;
  replies : list (timedelta * Response)
}.

Inductive outcome (A : Type) : Type :=
| Ok (a : A)
| Raised (e : exn).
Arguments Ok {A} a.
Arguments Raised {A} e.

Definition M (A : Type) : Type := World -> outcome A * World.

Definition ret {A : Type} (a : A) : M A := fun w => (Ok a, w).

Definition raise {A : Type} (e : exn) : M A := fun w => (Raised e, w).

Definition bind {A B : Type} (c : M A) (k : A -> M B) : M B :=
  fun w =>
    match c w with
    | (Ok a, w') => k a w'
    | (Raised e, w') => (Raised e, w')
    end.

Definition lift {A : Type} (o : outcome A) : M A := fun w => (o, w).

Notation "x <- c ;; k" := (bind c (fun x => k))
  (at level 100, c at next level, right associativity).
Notation "c ;; k" := (bind c (fun _ => k))
  (at level 100, right associativity).

(** [datetime.utcnow()] *)
Definition utcnow : M datetime := fun w => (Ok (now w), w).

(** [requests.get], [requests.post] and [requests.delete]: the request
    is recorded and the next answer of the provider is consumed; with
    no answer left the transport raises. *)
Definition requests (r : Request) : M Response :=
  fun w =>
    match replies w with
    | [] =>
        (Raised ConnectionError,
         {| now := now w; tokenCache := tokenCache w;
            serviceRecords := serviceRecords w;
            sent := sent w ++ [r]; replies := [] |})
    | (dt, resp) :: rest =>
        (Ok resp,
         {| now := now w + dt; tokenCache := tokenCache w;
            serviceRecords := serviceRecords w;
            sent := sent w ++ [r]; replies := rest |})
    end.

(** [response.json()] *)
Definition json_of (r : Response) : outcome pyval :=
  match json r with
  | Some v => Ok v
  | None => Raised ValueError
  end.

(** [v[key]] with a string key. *)
Definition getitem (v : pyval) (key : string) : outcome pyval :=
  match v with
  | VDict kv =>
      match assoc String.eqb key kv with
      | Some x => Ok x
      | None => Raised (KeyError key)
      end
  | _ => Raised TypeError
  end.

(** [v - q] *)
Definition py_sub (v : pyval) (q : Q) : outcome Q :=
  match as_number v with
  | Some x => Ok (x - q)%Q
  | None => Raised TypeError
  end.

(** [v / q] for a non-zero constant [q] *)
Definition py_div (v : pyval) (q : Q) : outcome pyval :=
  match as_number v with
  | Some x => Ok (VNum (x / q)%Q)
  | None => Raised TypeError
  end.

(** *** The token cache *)

(** [_tokenCache = SessionCache("powertraxx", lifetime=timedelta(minutes=29))] *)
Definition _tokenCache_lifetime : timedelta := timedelta_minutes 29.

(** Modelled from the spec: the class [SessionCache] is not part of the
    sources at hand.  It is the Token Store, a time-bounded cache keyed
    by the external account identifier: an entry is readable until the
    lifetime has passed since it was written. *)
Definition SessionCache_Get (pk : string) : M (option TokenItem) :=
  fun w =>
    match tokenCache w !! pk with
    | Some (item, written) =>
        if now w <? written + _tokenCache_lifetime
        then (Ok (Some item), w)
        else (Ok None, w)
    | None => (Ok None, w)
    end.

(** Modelled from the spec: [SessionCache.Set], see [SessionCache_Get]. *)
Definition SessionCache_Set (pk : string) (item : TokenItem) : M unit :=
  fun w =>
    (Ok tt,
     {| now := now w; tokenCache := <[pk := (item, now w)]> (tokenCache w);
        serviceRecords := serviceRecords w;
        sent := sent w; replies := replies w |}).

(** Modelled from the spec: [SessionCache.Delete], see [SessionCache_Get]. *)
Definition SessionCache_Delete (pk : string) : M unit :=
  fun w =>
    (Ok tt,
     {| now := now w; tokenCache := delete pk (tokenCache w);
        serviceRecords := serviceRecords w;
        sent := sent w; replies := replies w |}).

(** Modelled from the spec: [EnsureServiceRecordWithAuth] is not part of
    the sources at hand.  It propagates the refreshed credential back to
    the long-lived account binding, so that the next run can refresh
    again; the record the caller holds in memory is not touched. *)
Definition EnsureServiceRecordWithAuth (uid : string) (item : TokenItem) : M unit :=
  fun w =>
    (Ok tt,
     {| now := now w; tokenCache := tokenCache w;
        serviceRecords := <[uid := item]> (serviceRecords w);
        sent := sent w; replies := replies w |}).

(** ** The service *)

Section PowerTraxxService.

(** [tapiriik.settings] *)
Variable POWERTRAXX_CLIENT_ID : string.
Variable POWERTRAXX_CLIENT_SECRET : string.

(** [WEB_ROOT + reverse("oauth_return", kwargs={"service": "powertraxx"})] *)
Variable redirect_uri : string.

(** [str(v)] for a value that is not a string already. *)
Variable repr : pyval -> string.

(** [dateutil.parser.parse], [None] where it raises. *)
Variable parse : string -> option datetime.

(** [d.isoformat()] *)
Variable isoformat : datetime -> string.

(** The zone of the host, as [time.mktime] uses it on a time tuple
    whose [tm_isdst] is 0: the offset from UTC, in seconds east, of the
    standard time of the zone at a given second of the local clock.
    Daylight saving time is never part of it.  It is 0 on a host whose
    zone is UTC and 3600 in Berlin, in summer as in winter. *)
Variable utcoffset : Z -> Z.

(** The unit conversion of [ActivityStatistic.asUnits]. *)
Variable convertValue :
  ActivityStatisticUnit.t -> ActivityStatisticUnit.t -> pyval -> pyval.

(** ["%s" % v] *)
Definition str (v : pyval) : string :=
  match v with
  | VStr s => s
  | _ => repr v
  end.

Definition BaseUrl : string := "http://localhost:52060".

(** [_getTokenFromResponse] *)
Definition _getTokenFromResponse (response : Response) : M TokenItem :=
  j <- lift (json_of response) ;;
  e <- lift (getitem j "expires_in") ;;
  (* 30 seconds buffer so it doesn't expire mid request *)
  expires_in <- lift (py_sub e 30) ;;
  j <- lift (json_of response) ;;
  token <- lift (getitem j "access_token") ;;
  j <- lift (json_of response) ;;
  refresh_token <- lift (getitem j "refresh_token") ;;
  t <- utcnow ;;
  let expiration_date := t + timedelta_seconds expires_in in
  ret {| AccessToken := token;
         RefreshToken := refresh_token;
         ExpirationDate := expiration_date |}.

(** The message of the two failures of the refresh exchange. *)
Definition refresh_failed (response : Response) : string :=
  "Could not retrieve refreshed token " ++ pretty (status_code response)
    ++ " " ++ text response.

(** What [_getAuthHeaders] takes as the current token and its expiry:
    with an entry in the token cache, the access token and the
    expiration date of the service record; without one, nothing. *)
Definition credentials (serviceRecord : ServiceRecord) (authInfo : option TokenItem)
  : pyval * option datetime :=
  match authInfo with
  | Some _ =>
      (AccessToken (Authorization serviceRecord),
       Some (ExpirationDate (Authorization serviceRecord)))
  | None => (VNone, None)
  end.

(** [not token or exp_date < datetime.utcnow()] *)
Definition needs_refresh (token : pyval) (exp_date : option datetime) : M bool :=
  if negb (truthy token) then ret true
  else
    match exp_date with
    | Some d => t <- utcnow ;; ret (d <? t)
    | None => raise TypeError
    end.

(** The refresh-token grant posted to the token endpoint. *)
Definition token_request (serviceRecord : ServiceRecord) : Request :=
  {| method := POST;
     url := BaseUrl ++ "/token";
     headers := [("Content-Type", "application/x-www-form-urlencoded")];
     data :=
       VDict [("grant_type", VStr "refresh_token");
              ("refresh_token", RefreshToken (Authorization serviceRecord));
              ("client_id", VStr POWERTRAXX_CLIENT_ID);
              ("client_secret", VStr POWERTRAXX_CLIENT_SECRET)] |}.

(** What [_getAuthHeaders] does with the answer of the token endpoint. *)
Definition refreshed (serviceRecord : ServiceRecord) (response : Response)
  : M (list (string * string)) :=
  if negb (status_code response =? 200) then
    if (400 <=? status_code response) && (status_code response <? 500) then
      raise (APIError
               {| message := refresh_failed response;
                  block := true;
                  user_exception :=
                    Some (mkUserException
                            UserExceptionType.Authorization true) |})
    else raise (APIError (APIException_ (refresh_failed response)))
  else
    tokenItem <- _getTokenFromResponse response ;;
    SessionCache_Set (ExternalID serviceRecord) tokenItem ;;
    EnsureServiceRecordWithAuth (ExternalID serviceRecord) tokenItem ;;
    (* token = tokenItem.AccessToken: tokenItem is a dict, and the keys
       of a dict are not attributes *)
    raise (AttributeError "AccessToken").

(** [_getAuthHeaders] *)
Definition _getAuthHeaders (serviceRecord : ServiceRecord)
  : M (list (string * string)) :=
  authInfo <- SessionCache_Get (ExternalID serviceRecord) ;;
  let token := fst (credentials serviceRecord authInfo) in
  let exp_date := snd (credentials serviceRecord authInfo) in
  stale <- needs_refresh token exp_date ;;
  if (stale : bool) then
    (* Use refresh token to get access token *)
    response <- requests (token_request serviceRecord) ;;
    refreshed serviceRecord response
  else
    ret [("Authorization", "Bearer " ++ str token)].

(** The first lines of [_getAuthHeaders] on their own: whether the
    call is going to refresh the token. *)
Definition refresh_due (serviceRecord : ServiceRecord) : M bool :=
  authInfo <- SessionCache_Get (ExternalID serviceRecord) ;;
  needs_refresh (fst (credentials serviceRecord authInfo))
    (snd (credentials serviceRecord authInfo)).

(** [RetrieveAuthorizationToken], given the code of the request. *)
Definition RetrieveAuthorizationToken (code : pyval) : M (pyval * TokenItem) :=
  let params :=
    VDict [("grant_type", VStr "authorization_code");
           ("code", code);
           ("client_id", VStr POWERTRAXX_CLIENT_ID);
           ("client_secret", VStr POWERTRAXX_CLIENT_SECRET);
           ("redirect_uri", VStr redirect_uri)] in
  response <-
    requests {| method := POST; url := BaseUrl ++ "/token";
                headers := [("Content-Type", "application/x-www-form-urlencoded")];
                data := params |} ;;
  if negb (status_code response =? 200) then
    raise (APIError (APIException_ "Invalid code"))
  else
    tokenItem <- _getTokenFromResponse response ;;
    userInfo <-
      requests {| method := POST; url := BaseUrl ++ "/api/account/userinfo";
                  headers := [("Authorization",
                               "Bearer " ++ str (AccessToken tokenItem))];
                  data := VNone |} ;;
    j <- lift (json_of userInfo) ;;
    uid <- lift (getitem j "Id") ;;
    ret (uid, tokenItem).

(** *** Sport types *)

(** mapping powertraxx -> common *)
Definition _activityMappings : list (string * ActivityType.t) :=
  [("run", ActivityType.Running);
   ("bicycle", ActivityType.Cycling);
   ("racingbicycle", ActivityType.Cycling);
   ("mountainbike", ActivityType.MountainBiking);
   ("walking", ActivityType.Walking);
   ("hike", ActivityType.Hiking);
   ("snowboard", ActivityType.Snowboarding);
   ("skialpin", ActivityType.DownhillSkiing);
   ("classicskiing", ActivityType.CrossCountrySkiing);
   ("skating", ActivityType.Skating);
   ("swim", ActivityType.Swimming);
   ("elliptical", ActivityType.Elliptical);
   ("other", ActivityType.Other)].

(** common -> powertraxx *)
Definition _reverseActivityMappings : list (ActivityType.t * Z) :=
  [(ActivityType.Running, 4);
   (ActivityType.Cycling, 3);
   (ActivityType.Walking, 9);
   (ActivityType.MountainBiking, 2);
   (ActivityType.Hiking, 5);
   (ActivityType.CrossCountrySkiing, 12);
   (ActivityType.DownhillSkiing, 13);
   (ActivityType.Snowboarding, 22);
   (ActivityType.Skating, 11);
   (ActivityType.Swimming, 6);
   (ActivityType.Elliptical, 10);
   (ActivityType.Other, 99)].

(** [_activityMappings.get(key)]: a key that is not a string is not in
    the table, and a list or a dict cannot be hashed. *)
Definition _activityMappings_get (key : pyval) : outcome (option ActivityType.t) :=
  match key with
  | VStr s => Ok (assoc String.eqb s _activityMappings)
  | VList _ | VDict _ => Raised TypeError
  | _ => Ok None
  end.

(** The two lines of [DownloadActivityList] that choose the type of
    an item: [_type = _activityMappings.get(item['SportType'])], then
    [if not _type: _type = ActivityType.Other].  Every activity type
    is a true value. *)
Definition forwardMap (sportType : pyval) : outcome ActivityType.t :=
  match _activityMappings_get sportType with
  | Ok (Some _type) => Ok _type
  | Ok None => Ok ActivityType.Other
  | Raised e => Raised e
  end.

(** [_reverseActivityMappings[activity.Type]] *)
Definition reverseMap (ty : ActivityType.t) : outcome pyval :=
  match assoc ActivityType.eqb ty _reverseActivityMappings with
  | Some code => Ok (VNum (inject_Z code))
  | None => Raised (KeyError "activity.Type")
  end.

(** *** Statistics *)

Definition unit_eqb (a b : ActivityStatisticUnit.t) : bool :=
  match a, b with
  | ActivityStatisticUnit.Seconds, ActivityStatisticUnit.Seconds => true
  | ActivityStatisticUnit.Meters, ActivityStatisticUnit.Meters => true
  | ActivityStatisticUnit.OtherUnit x, ActivityStatisticUnit.OtherUnit y =>
      String.eqb x y
  | _, _ => false
  end.

(** Modelled from the spec: the class [ActivityStatistic] is not part
    of the sources at hand.  [stat.asUnits(u)] is the statistic
    expressed in the unit [u]. *)
Definition asUnits (stat : ActivityStatistic) (u : ActivityStatisticUnit.t)
  : ActivityStatistic :=
  if unit_eqb u (Units stat) then stat
  else {| Units := u; Value := convertValue (Units stat) u (Value stat) |}.

(** [a - b] on two values *)
Definition py_minus (a b : pyval) : outcome pyval :=
  match as_number a, as_number b with
  | Some x, Some y => Ok (VNum (x - y)%Q)
  | _, _ => Raised TypeError
  end.

(** [_resolveDuration] *)
Definition _resolveDuration (obj : Activity) : pyval :=
  if is_not_None (Value (TimerTime (Stats obj))) then
    Value (asUnits (TimerTime (Stats obj)) ActivityStatisticUnit.Seconds)
  else if is_not_None (Value (MovingTime (Stats obj))) then
    Value (asUnits (MovingTime (Stats obj)) ActivityStatisticUnit.Seconds)
  else VNum (total_seconds (EndTime obj - StartTime obj)).

(** [_resolvePause] *)
Definition _resolvePause (obj : Activity) : outcome pyval :=
  if is_not_None (Value (TimerTime (Stats obj)))
     && is_not_None (Value (MovingTime (Stats obj)))
  then
    py_minus
      (Value (asUnits (TimerTime (Stats obj)) ActivityStatisticUnit.Seconds))
      (Value (asUnits (MovingTime (Stats obj)) ActivityStatisticUnit.Seconds))
  else Ok (VNum 0).

(** *** Helpers for code that only raises *)

Definition obind {A B : Type} (o : outcome A) (k : A -> outcome B) : outcome B :=
  match o with
  | Ok a => k a
  | Raised e => Raised e
  end.

Notation "x <~ o ;; k" := (obind o (fun x => k))
  (at level 100, o at next level, right associativity).

(** ["text" + v]: only a string can be added to a string. *)
Definition as_str (v : pyval) : outcome string :=
  match v with
  | VStr s => Ok s
  | _ => Raised TypeError
  end.

(** The single characters of a string, as [for c in s] yields them. *)
Fixpoint chars (s : string) : list pyval :=
  match s with
  | EmptyString => []
  | String c rest => VStr (String c EmptyString) :: chars rest
  end.

(** [for item in v] and [list(v)]: a list yields its elements, a dict
    its keys, a string its characters; nothing else can be iterated. *)
Definition py_iter (v : pyval) : outcome (list pyval) :=
  match v with
  | VList l => Ok l
  | VDict kv => Ok (map (fun p => VStr (fst p)) kv)
  | VStr s => Ok (chars s)
  | _ => Raised TypeError
  end.

(** [dateutil.parser.parse(v)] *)
Definition parse_date (v : pyval) : outcome datetime :=
  match v with
  | VStr s =>
      match parse s with
      | Some t => Ok t
      | None => Raised ValueError
      end
  | _ => Raised TypeError
  end.

(** [d[key] = v] on a dict: a new key goes last. *)
Fixpoint setitem {B : Type} (key : string) (v : B) (d : list (string * B))
  : list (string * B) :=
  match d with
  | [] => [(key, v)]
  | (k, x) :: rest =>
      if String.eqb key k then (k, v) :: rest
      else (k, x) :: setitem key v rest
  end.

(** *** Listing *)

(** [_getActivities] *)
Definition _getActivities (serviceRecord : ServiceRecord) (exhaustive : bool)
  : M pyval :=
  headers <- _getAuthHeaders serviceRecord ;;
  res <-
    (if exhaustive then
       requests {| method := GET; url := BaseUrl ++ "/api/activity/list";
                   headers := headers; data := VNone |}
     else
       requests {| method := GET;
                   url := BaseUrl ++ "/api/activity/list?count=25";
                   headers := headers; data := VNone |}) ;;
  match json res with
  | Some v => ret v
  | None =>
      raise (APIError
               (APIException_
                  ("Could not decode activity list response "
                     ++ pretty (status_code res) ++ " " ++ text res)))
  end.

(** Modelled from the spec: the class [UploadedActivity] is not part of
    the sources at hand.  A new activity is an empty stub of the
    canonical activity: no name, no notes, no laps, statistics without
    values. *)
Definition UploadedActivity : Activity :=
  {| ServiceData := [];
     Name := VNone;
     Notes := VNone;
     act_Type := ActivityType.Other;
     StartTime := 0;
     EndTime := 0;
     Private := false;
     GPS := VNone;
     Stationary := VNone;
     Stats :=
       {| Distance := Some (mkStat ActivityStatisticUnit.Meters VNone);
          TimerTime := mkStat ActivityStatisticUnit.Seconds VNone;
          MovingTime := mkStat ActivityStatisticUnit.Seconds VNone |};
     Laps := [] |}.

(** The body of the loop of [DownloadActivityList]: one item of the
    list becomes one activity. *)
Definition activity_of_item (item : pyval) : outcome Activity :=
  id <~ getitem item "Id" ;;
  _ <~ as_str id ;;                      (* "Activity Id: " + id *)
  let activity := UploadedActivity in
  sportType <~ getitem item "SportType" ;;
  _type <~ forwardMap sportType ;;
  distance <~ getitem item "Distance" ;;
  startDate <~ getitem item "StartDate" ;;
  startTime <~ parse_date startDate ;;
  endDate <~ getitem item "EndDate" ;;
  endTime <~ parse_date endDate ;;
  name <~ getitem item "Name" ;;
  Ok {| ServiceData := [("ActivityID", id)];
        Name := name;
        Notes := Notes activity;
        act_Type := _type;
        StartTime := startTime;
        EndTime := endTime;
        Private := Private activity;
        GPS := GPS activity;
        Stationary := Stationary activity;
        Stats :=
          {| Distance := Some (mkStat ActivityStatisticUnit.Meters distance);
             TimerTime := TimerTime (Stats activity);
             MovingTime := MovingTime (Stats activity) |};
        Laps := Laps activity |}.

Fixpoint activities_of_items (items : list pyval) : outcome (list Activity) :=
  match items with
  | [] => Ok []
  | item :: rest =>
      activity <~ activity_of_item item ;;
      activities <~ activities_of_items rest ;;
      Ok (activity :: activities)
  end.

(** An item the loop of [DownloadActivityList] can turn into an
    activity: its id is a string, its sport type can be looked up, its
    dates are strings that [dateutil] can parse, and it has a distance
    and a name. *)
Definition listable (item : pyval) : Prop :=
  (exists id, getitem item "Id" = Ok (VStr id))
  /\ (exists sportType ty,
        getitem item "SportType" = Ok sportType
        /\ forwardMap sportType = Ok ty)
  /\ (exists distance, getitem item "Distance" = Ok distance)
  /\ (exists s t, getitem item "StartDate" = Ok (VStr s) /\ parse s = Some t)
  /\ (exists s t, getitem item "EndDate" = Ok (VStr s) /\ parse s = Some t)
  /\ (exists name, getitem item "Name" = Ok name).

(** What the activity made of an item holds. *)
Definition listed (item : pyval) (activity : Activity) : Prop :=
  (exists id,
      getitem item "Id" = Ok (VStr id)
      /\ ServiceData activity = [("ActivityID", VStr id)])
  /\ (exists sportType,
        getitem item "SportType" = Ok sportType
        /\ forwardMap sportType = Ok (act_Type activity))
  /\ (exists distance,
        getitem item "Distance" = Ok distance
        /\ Distance (Stats activity)
           = Some (mkStat ActivityStatisticUnit.Meters distance))
  /\ (exists s,
        getitem item "StartDate" = Ok (VStr s)
        /\ parse s = Some (StartTime activity))
  /\ (exists s,
        getitem item "EndDate" = Ok (VStr s)
        /\ parse s = Some (EndTime activity))
  /\ getitem item "Name" = Ok (Name activity)
  /\ Laps activity = [].

(** The request [_getActivities] sends. *)
Definition list_request (hdrs : list (string * string)) (exhaustive : bool)
  : Request :=
  {| method := GET;
     url := if exhaustive then BaseUrl ++ "/api/activity/list"
            else BaseUrl ++ "/api/activity/list?count=25";
     headers := hdrs; data := VNone |}.

(** [DownloadActivityList]: the activities and the exclusions, of which
    there are none. *)
Definition DownloadActivityList (serviceRecord : ServiceRecord) (exhaustive : bool)
  : M (list Activity * list pyval) :=
  items <- _getActivities serviceRecord exhaustive ;;
  items <- lift (py_iter items) ;;
  activities <- lift (activities_of_items items) ;;
  ret (activities, []).

(** *** Download *)

(** The tag of a new waypoint: [Pause] when the point has a pause
    marker, [Resume] right after a pause, [Regular] otherwise. *)
Definition waypoint_type (pause : pyval) (lastWaypoint : option Waypoint)
  : WaypointType.t :=
  if is_not_None pause then WaypointType.Pause
  else
    match lastWaypoint with
    | Some w =>
        if WaypointType.is_Pause (wp_Type w) then WaypointType.Resume
        else WaypointType.Regular
    | None => WaypointType.Regular
    end.

(** The body of the loop over [activityData["Points"]]. *)
Definition waypoint_of_point (lastWaypoint : option Waypoint) (wp : pyval)
  : outcome Waypoint :=
  ts <~ getitem wp "TimeStamp" ;;
  timestamp <~ parse_date ts ;;
  distance <~ getitem wp "Distance" ;;
  pause <~ getitem wp "Pause" ;;
  let type := waypoint_type pause lastWaypoint in
  lat <~ getitem wp "Lat" ;;
  lon <~ getitem wp "Lon" ;;
  elevation <~ getitem wp "Elevation" ;;
  power <~ getitem wp "Power" ;;
  cadence <~ getitem wp "Cadence" ;;
  steps <~ getitem wp "Steps" ;;
  speed <~ getitem wp "Speed" ;;
  speed <~ py_div speed (36 # 10) ;;
  heartrate <~ getitem wp "Heartrate" ;;
  Ok {| Timestamp := Some timestamp;
        wp_Type := type;
        wp_Location := Some (mkLocation lat lon elevation);
        HR := heartrate;
        Speed := speed;
        wp_Distance := distance;
        Cadence := cadence;
        RunCadence := steps;
        Power := power |}.

(** The loop itself: [lap.Waypoints.append(waypoint)] and
    [lastWaypoint = waypoint] after each point. *)
Fixpoint waypoints_of_points (lastWaypoint : option Waypoint) (points : list pyval)
  : outcome (list Waypoint) :=
  match points with
  | [] => Ok []
  | wp :: rest =>
      waypoint <~ waypoint_of_point lastWaypoint wp ;;
      more <~ waypoints_of_points (Some waypoint) rest ;;
      Ok (waypoint :: more)
  end.

(** A point the loop can decode: it has every key the loop reads, its
    time stamp is a string that [dateutil] can parse and its speed is a
    number. *)
Definition decodable (wp : pyval) : Prop :=
  (exists s t, getitem wp "TimeStamp" = Ok (VStr s) /\ parse s = Some t)
  /\ (exists v q, getitem wp "Speed" = Ok v /\ as_number v = Some q)
  /\ Forall (fun key => exists v, getitem wp key = Ok v)
       ["Distance"; "Pause"; "Lat"; "Lon"; "Elevation"; "Power"; "Cadence";
        "Steps"; "Heartrate"].

(** The waypoint made before the one at a position, [lastWaypoint]
    being the one made before the first. *)
Definition before (lastWaypoint : option Waypoint) (ws : list Waypoint) (i : nat)
  : option Waypoint :=
  match i with
  | O => lastWaypoint
  | S j => ws !! j
  end.

(** What the waypoint made of a point holds, given the waypoint made
    before it: the parsed time stamp, the tag, the speed divided by
    3.6 and the other fields as they are. *)
Definition waypoint_from (lastWaypoint : option Waypoint) (wp : pyval)
  (w : Waypoint) : Prop :=
  (exists s t,
      getitem wp "TimeStamp" = Ok (VStr s) /\ parse s = Some t
      /\ Timestamp w = Some t)
  /\ (exists pause,
        getitem wp "Pause" = Ok pause
        /\ wp_Type w = waypoint_type pause lastWaypoint)
  /\ (exists v q,
        getitem wp "Speed" = Ok v /\ as_number v = Some q
        /\ Speed w = VNum (q / (36 # 10))%Q)
  /\ (exists lat lon elevation,
        getitem wp "Lat" = Ok lat /\ getitem wp "Lon" = Ok lon
        /\ getitem wp "Elevation" = Ok elevation
        /\ wp_Location w = Some (mkLocation lat lon elevation))
  /\ getitem wp "Distance" = Ok (wp_Distance w)
  /\ getitem wp "Power" = Ok (Power w)
  /\ getitem wp "Cadence" = Ok (Cadence w)
  /\ getitem wp "Steps" = Ok (RunCadence w)
  /\ getitem wp "Heartrate" = Ok (HR w).

Definition set_Type (t : WaypointType.t) (w : Waypoint) : Waypoint :=
  {| Timestamp := Timestamp w;
     wp_Type := t;
     wp_Location := wp_Location w;
     HR := HR w;
     Speed := Speed w;
     wp_Distance := wp_Distance w;
     Cadence := Cadence w;
     RunCadence := RunCadence w;
     Power := Power w |}.

(** [Waypoints[0].Type = Start] and [Waypoints[-1].Type = End], in this
    order. *)
Definition mark_Start_End (ws : list Waypoint) : list Waypoint :=
  let ws := alter (set_Type WaypointType.Start) 0%nat ws in
  alter (set_Type WaypointType.End_) (length ws - 1)%nat ws.

(** [_downloadActivity] *)
Definition _downloadActivity (serviceRecord : ServiceRecord) (activity : Activity)
  : M Activity :=
  activityId <- lift (getitem (VDict (ServiceData activity)) "ActivityID") ;;
  headers <- _getAuthHeaders serviceRecord ;;
  activityId <- lift (as_str activityId) ;;
  response <-
    requests {| method := GET; url := BaseUrl ++ "/api/activity/" ++ activityId;
                headers := headers; data := VNone |} ;;
  if negb (status_code response =? 200) then
    if (status_code response =? 401) || (status_code response =? 403) then
      raise (APIError
               {| message := "No authorization to download activity" ++ activityId;
                  block := true;
                  user_exception :=
                    Some (mkUserException
                            UserExceptionType.Authorization true) |})
    else
      raise (APIError
               (APIException_
                  ("Unable to download activity " ++ activityId ++ " response "
                     ++ "<Response [" ++ pretty (status_code response) ++ "]>"
                     ++ " " ++ text response)))
  else
    activityData <- lift (json_of response) ;;
    comment <- lift (getitem activityData "Comment") ;;
    let notes := if truthy comment then comment else Notes activity in
    hasGps <- lift (getitem activityData "HasGps") ;;
    isPublic <- lift (getitem activityData "IsPublic") ;;
    points <- lift (getitem activityData "Points") ;;
    points <- lift (py_iter points) ;;
    waypoints <- lift (waypoints_of_points None points) ;;
    let lap :=
      {| lap_Stats := Stats activity;
         lap_StartTime := StartTime activity;
         lap_EndTime := EndTime activity;
         Waypoints := waypoints |} in
    let activity :=
      {| ServiceData := ServiceData activity;
         Name := Name activity;
         Notes := notes;
         act_Type := act_Type activity;
         StartTime := StartTime activity;
         EndTime := EndTime activity;
         Private := negb (truthy isPublic);
         GPS := hasGps;
         Stationary := Stationary activity;
         Stats := Stats activity;
         Laps := [lap] |} in
    let stationary := (CountTotalWaypoints activity <=? 1)%nat in
    let lap :=
      if negb stationary then
        {| lap_Stats := lap_Stats lap;
           lap_StartTime := lap_StartTime lap;
           lap_EndTime := lap_EndTime lap;
           Waypoints := mark_Start_End (Waypoints lap) |}
      else lap in
    (* the last statement logs the UID of the activity, which
       [CalculateUID] has set when the activity was listed *)
    ret {| ServiceData := ServiceData activity;
           Name := Name activity;
           Notes := Notes activity;
           act_Type := act_Type activity;
           StartTime := StartTime activity;
           EndTime := EndTime activity;
           Private := Private activity;
           GPS := GPS activity;
           Stationary := VBool stationary;
           Stats := Stats activity;
           Laps := [lap] |}.

(** [DownloadActivity] *)
Definition DownloadActivity (serviceRecord : ServiceRecord) (activity : Activity)
  : M Activity :=
  _downloadActivity serviceRecord activity.

(** *** Upload *)

(** The payload of an activity without GPS data.  The distance is
    assigned with a trailing comma, [... .Value,], which makes it a
    tuple of one element; [json.dumps] writes a tuple as an array. *)
Definition activity_data_summary (activity : Activity)
  : outcome (list (string * pyval)) :=
  let duration := _resolveDuration activity in
  pause <~ _resolvePause activity ;;
  sportType <~ reverseMap (act_Type activity) ;;
  let activity_data :=
    [("name", Name activity);
     ("comment", Notes activity);
     ("date", VStr (isoformat (StartTime activity)));
     ("share", VBool (negb (Private activity)));
     ("duration", duration);
     ("pause", pause);
     ("sportType", sportType)] in
  match Distance (Stats activity) with
  | Some distance =>
      Ok (setitem "distance"
            (VList [Value (asUnits distance ActivityStatisticUnit.Meters)])
            activity_data)
  | None => Ok activity_data
  end.

(** [time.mktime(t.astimezone(pytz.utc).timetuple())]: the time tuple
    has the whole seconds of the UTC clock and [tm_isdst = 0], and
    [time.mktime] reads it as standard time of the zone of the host.
    The result is the epoch second of [t] less the standard offset of
    the host, hence the epoch second itself on a UTC host only. *)
Definition mktime_utc (t : datetime) : Q :=
  let s := t / 1000000 in
  inject_Z (s - utcoffset s).

Definition when_ (c : bool) (key : string) (v : pyval)
  (item : list (string * pyval)) : list (string * pyval) :=
  if c then setitem key v item else item.

(** [wp.Location and wp.Location.Latitude and wp.Location.Longitude] *)
Definition has_lat_lon (wp : Waypoint) : bool :=
  match wp_Location wp with
  | Some loc => truthy (Latitude loc) && truthy (Longitude loc)
  | None => false
  end.

(** [wp.Location and wp.Location.Altitude] *)
Definition has_altitude (wp : Waypoint) : bool :=
  match wp_Location wp with
  | Some loc => truthy (Altitude loc)
  | None => false
  end.

Definition loc_field (f : Location -> pyval) (wp : Waypoint) : pyval :=
  match wp_Location wp with
  | Some loc => f loc
  | None => VNone
  end.

(** The body of the loop over [activity.GetFlatWaypoints()]: the record
    of one waypoint. *)
Definition point_record (wp : Waypoint) : list (string * pyval) :=
  let item := [] in
  let item :=
    if has_lat_lon wp then
      setitem "lon" (loc_field Longitude wp)
        (setitem "lat" (loc_field Latitude wp) item)
    else item in
  let item := when_ (has_altitude wp) "ele" (loc_field Altitude wp) item in
  let item :=
    match Timestamp wp with
    | Some t => setitem "timestampValue" (VNum (mktime_utc t)) item
    | None => item
    end in
  let item := when_ (truthy (HR wp)) "heartrate" (HR wp) item in
  let item := when_ (truthy (Speed wp)) "speed" (Speed wp) item in
  let item := when_ (truthy (wp_Distance wp)) "distance" (wp_Distance wp) item in
  let item := when_ (truthy (Cadence wp)) "cadence" (Cadence wp) item in
  let item := when_ (truthy (RunCadence wp)) "steps" (RunCadence wp) item in
  let item := when_ (truthy (Power wp)) "power" (Power wp) item in
  item.

(** The keys a point record can have. *)
Definition point_keys : list string :=
  ["lat"; "lon"; "ele"; "timestampValue"; "heartrate"; "speed"; "distance";
   "cadence"; "steps"; "power"].

(** The payload of an activity with GPS data. *)
Definition activity_data_points (activity : Activity)
  : outcome (list (string * pyval)) :=
  let inner := [] in
  let inner := when_ (truthy (Name activity)) "name" (Name activity) inner in
  let inner := when_ (truthy (Notes activity)) "comment" (Notes activity) inner in
  let inner := when_ (truthy (Stationary activity)) "indoor" (VBool true) inner in
  sportType <~ reverseMap (act_Type activity) ;;
  let inner := setitem "sportType" sportType inner in
  Ok [("activity", VDict inner);
      ("activityRawFormatList",
       VList (map (fun wp => VDict (point_record wp)) (GetFlatWaypoints activity)));
      ("start_time", VStr (isoformat (StartTime activity)));
      ("share", VBool (negb (Private activity)))].

(** The end of both branches of [UploadActivity]: post the payload and
    read the answer. *)
Definition post_activity (serviceRecord : ServiceRecord)
  (activity_data : list (string * pyval)) : M pyval :=
  headers <- _getAuthHeaders serviceRecord ;;
  let headers := setitem "Content-Type" "application/json" headers in
  upload_resp <-
    requests {| method := POST; url := BaseUrl ++ "/api/activity";
                headers := headers; data := VDict activity_data |} ;;
  if negb (status_code upload_resp =? 200) then
    if status_code upload_resp =? 401 then
      raise (APIError
               {| message := "ST.mobi trial expired";
                  block := true;
                  user_exception :=
                    Some (mkUserException
                            UserExceptionType.AccountExpired true) |})
    else
      raise (APIError
               (APIException_ ("Unable to upload activity " ++ text upload_resp)))
  else
    j <- lift (json_of upload_resp) ;;
    lift (getitem j "AcId").

(** [UploadActivity] *)
Definition UploadActivity (serviceRecord : ServiceRecord) (activity : Activity)
  : M pyval :=
  if negb (truthy (GPS activity)) then
    activity_data <- lift (activity_data_summary activity) ;;
    post_activity serviceRecord activity_data
  else
    activity_data <- lift (activity_data_points activity) ;;
    post_activity serviceRecord activity_data.

(** *** Delete *)

(** [response.raise_for_status()] *)
Definition raise_for_status (r : Response) : M unit :=
  if (400 <=? status_code r) && (status_code r <? 600)
  then raise (HTTPError (status_code r))
  else ret tt.

(** [DeleteActivity] *)
Definition DeleteActivity (serviceRecord : ServiceRecord) (uploadId : pyval)
  : M unit :=
  headers <- _getAuthHeaders serviceRecord ;;
  del_res <-
    requests {| method := DELETE; url := BaseUrl ++ "/api/activity/" ++ str uploadId;
                headers := headers; data := VNone |} ;;
  raise_for_status del_res.

(** [DeleteCachedData] *)
Definition DeleteCachedData (serviceRecord : ServiceRecord) : M unit :=
  SessionCache_Delete (ExternalID serviceRecord).

(** *** Several callers of [_getAuthHeaders] at once

    A caller can be overtaken by another one wherever it waits for the
    network: between reading the cache and posting the refresh grant,
    and between the answer and storing the new token.  [advance] runs a
    caller up to the next such point. *)

Inductive phase : Type :=
| Calling
| Exchanging
| Storing (response : Response)
| Finished (result : outcome (list (string * string))).

Definition advance (serviceRecord : ServiceRecord) (ph : phase) (w : World)
  : option (phase * World) :=
  match ph with
  | Calling =>
      match SessionCache_Get (ExternalID serviceRecord) w with
      | (Ok authInfo, w1) =>
          let token := fst (credentials serviceRecord authInfo) in
          let exp_date := snd (credentials serviceRecord authInfo) in
          match needs_refresh token exp_date w1 with
          | (Ok true, w2) => Some (Exchanging, w2)
          | (Ok false, w2) =>
              Some (Finished (Ok [("Authorization", "Bearer " ++ str token)]), w2)
          | (Raised e, w2) => Some (Finished (Raised e), w2)
          end
      | (Raised e, w1) => Some (Finished (Raised e), w1)
      end
  | Exchanging =>
      match requests (token_request serviceRecord) w with
      | (Ok response, w1) => Some (Storing response, w1)
      | (Raised e, w1) => Some (Finished (Raised e), w1)
      end
  | Storing response =>
      match refreshed serviceRecord response w with
      | (result, w1) => Some (Finished result, w1)
      end
  | Finished _ => None
  end.

(** One caller on its own. *)
Fixpoint run_alone (fuel : nat) (serviceRecord : ServiceRecord) (ph : phase)
  (w : World) : phase * World :=
  match fuel with
  | O => (ph, w)
  | S fuel' =>
      match advance serviceRecord ph w with
      | Some (ph', w') => run_alone fuel' serviceRecord ph' w'
      | None => (ph, w)
      end
  end.

(** The callers in flight, and one step of any of them. *)
Definition callers : Type := list (ServiceRecord * phase).

Inductive step : callers * World -> callers * World -> Prop :=
| step_caller (i : nat) (cs : callers) (sr : ServiceRecord) (ph ph' : phase)
    (w w' : World) :
    cs !! i = Some (sr, ph) ->
    advance sr ph w = Some (ph', w') ->
    step (cs, w) (<[i := (sr, ph')]> cs, w').

(** The callers advanced in the order a schedule names them. *)
Fixpoint schedule (order : list nat) (cs : callers) (w : World)
  : option (callers * World) :=
  match order with
  | [] => Some (cs, w)
  | i :: rest =>
      match cs !! i with
      | Some (sr, ph) =>
          match advance sr ph w with
          | Some (ph', w') => schedule rest (<[i := (sr, ph')]> cs) w'
          | None => None
          end
      | None => None
      end
  end.

Definition is_Finished (c : ServiceRecord * phase) : bool :=
  match snd c with
  | Finished _ => true
  | _ => false
  end.

(** The refresh grants among the requests sent. *)
Definition is_token_request (r : Request) : bool :=
  match method r with
  | POST => String.eqb (url r) (BaseUrl ++ "/token")
  | _ => false
  end.

Definition exchanges (w : World) : nat :=
  length (filter (fun r => is_token_request r = true) (sent w)).

(** Whether a caller has posted its refresh grant, and how many of the
    callers have. *)
Definition posted (ph : phase) : nat :=
  match ph with
  | Calling | Exchanging => 0
  | Storing _ | Finished _ => 1
  end.

Fixpoint posted_by (cs : callers) : nat :=
  match cs with
  | [] => 0
  | (_, ph) :: rest => posted ph + posted_by rest
  end.

(** The record of the account has no true access token or has expired. *)
Definition stale_record (serviceRecord : ServiceRecord) (w : World) : Prop :=
  truthy (AccessToken (Authorization serviceRecord)) = false
  \/ ExpirationDate (Authorization serviceRecord) < now w.

(** No answer arrives before its request. *)
Definition causal (w : World) : Prop :=
  Forall (fun r => 0 <= fst r) (replies w).

(** What holds all along while callers for one stale record run: they
    all hold that record, it stays stale, and the grants posted so far
    are those of the callers that are past the exchange. *)
Definition refreshing (serviceRecord : ServiceRecord) (before : nat)
  (s : callers * World) : Prop :=
  Forall (fun c => fst c = serviceRecord) (fst s)
  /\ stale_record serviceRecord (snd s)
  /\ causal (snd s)
  /\ exchanges (snd s) = (before + posted_by (fst s))%nat.

End PowerTraxxService.

(** ** Sample data

    A host configuration and a few concrete records, on which the
    statements below are also evaluated. *)

Module Sample.

Definition repr (v : pyval) : string :=
  match v with
  | VNone => "None"
  | VBool true => "True"
  | VBool false => "False"
  | _ => "?"
  end.

Definition t0 : datetime := 1462096800000000.

Definition second : timedelta := 1000000.

Definition parse (s : string) : option datetime :=
  assoc String.eqb s
    [("2016-05-01T10:00:00Z", t0);
     ("2016-05-01T10:00:01Z", t0 + 1 * second);
     ("2016-05-01T10:00:02Z", t0 + 2 * second);
     ("2016-05-01T10:00:03Z", t0 + 3 * second)].

Definition isoformat (t : datetime) : string := pretty t.

Definition utcoffset (s : Z) : Z := 0.


Definition convertValue (from to : ActivityStatisticUnit.t) (v : pyval) : pyval :=
  match from, to, v with
  | ActivityStatisticUnit.OtherUnit "min", ActivityStatisticUnit.Seconds, VNum q =>
      VNum (q * 60)%Q
  | ActivityStatisticUnit.OtherUnit "km", ActivityStatisticUnit.Meters, VNum q =>
      VNum (q * 1000)%Q
  | _, _, _ => v
  end.

Definition client_id : string := "client".
Definition client_secret : string := "secret".

(** A token issued at [t0] for 60 seconds, after the 30 seconds buffer. *)
Definition token : TokenItem :=
  {| AccessToken := VStr "A"; RefreshToken := VStr "R";
     ExpirationDate := t0 + 30 * second |}.

Definition account : ServiceRecord :=
  {| ExternalID := "u"; Authorization := token |}.

(** The same account with another access token in its record. *)
Definition other_account : ServiceRecord :=
  {| ExternalID := "u";
     Authorization :=
       {| AccessToken := VStr "B"; RefreshToken := VStr "R";
          ExpirationDate := t0 + 30 * second |} |}.

(** The same account with a record that expired before [t0]. *)
Definition lapsed_account : ServiceRecord :=
  {| ExternalID := "u";
     Authorization :=
       {| AccessToken := VStr "A"; RefreshToken := VStr "R";
          ExpirationDate := t0 - 1 * second |} |}.

(** The token of a refresh granted at [t0] for 60 seconds, and the
    account with this token in its record. *)
Definition issued : TokenItem :=
  {| AccessToken := VStr "B"; RefreshToken := VStr "S";
     ExpirationDate := t0 + 30 * second |}.

Definition renewed_account : ServiceRecord :=
  {| ExternalID := "u"; Authorization := issued |}.

(** The answer of the token endpoint to a successful exchange. *)
Definition granted : Response :=
  {| status_code := 200; text := "";
     json := Some (VDict [("access_token", VStr "B");
                          ("refresh_token", VStr "S");
                          ("expires_in", VNum 60)]) |}.

Definition world (t : datetime) (cached : gmap string (TokenItem * datetime))
  (answers : list (timedelta * Response)) : World :=
  {| now := t; tokenCache := cached; serviceRecords := ∅;
     sent := []; replies := answers |}.

Definition cached (item : TokenItem) : gmap string (TokenItem * datetime) :=
  {[ "u" := (item, t0) ]}.

Definition stat (u : ActivityStatisticUnit.t) (v : pyval) : ActivityStatistic :=
  {| Units := u; Value := v |}.

Definition activity (gps : pyval) (distance timer moving : pyval)
  (laps : list Lap) : Activity :=
  {| ServiceData := [("ActivityID", VStr "42")];
     Name := VStr "Morning run";
     Notes := VNone;
     act_Type := ActivityType.Running;
     StartTime := t0;
     EndTime := t0 + 1800 * second;
     Private := false;
     GPS := gps;
     Stationary := VBool false;
     Stats :=
       {| Distance := Some (stat ActivityStatisticUnit.Meters distance);
          TimerTime := stat ActivityStatisticUnit.Seconds timer;
          MovingTime := stat ActivityStatisticUnit.Seconds moving |};
     Laps := laps |}.

Definition point (ts : string) (pause : pyval) : pyval :=
  VDict [("TimeStamp", VStr ts); ("Distance", VNum 0); ("Pause", pause);
         ("Lat", VNum 48); ("Lon", VNum 11); ("Elevation", VNum 500);
         ("Power", VNone); ("Cadence", VNone); ("Steps", VNone);
         ("Speed", VNum 36); ("Heartrate", VNum 120)].

(** The stream of four points with the pause markers
    [null, set, null, null]. *)
Definition points : list pyval :=
  [point "2016-05-01T10:00:00Z" VNone;
   point "2016-05-01T10:00:01Z" (VBool true);
   point "2016-05-01T10:00:02Z" VNone;
   point "2016-05-01T10:00:03Z" VNone].

Definition detail (ps : list pyval) : Response :=
  {| status_code := 200; text := "";
     json := Some (VDict [("Comment", VStr ""); ("HasGps", VBool true);
                          ("IsPublic", VBool true); ("Points", VList ps)]) |}.

Definition answer (status : Z) (body : option pyval) : Response :=
  {| status_code := status; text := "denied"; json := body |}.

(** A waypoint on the equator whose heart rate and speed are zero. *)
Definition zero_waypoint : Waypoint :=
  {| Timestamp := Some t0;
     wp_Type := WaypointType.Regular;
     wp_Location := Some (mkLocation (VNum 0) (VNum 11) (VNum 0));
     HR := VNum 0;
     Speed := VNum 0;
     wp_Distance := VNone;
     Cadence := VNone;
     RunCadence := VNone;
     Power := VNone |}.

(** An activity entered by hand: no GPS, 5000 m, 1800 s on the timer,
    1500 s moving. *)
Definition manual : Activity :=
  activity VNone (VNum 5000) (VNum 1800) (VNum 1500) [].

(** The same activity with its times in minutes. *)
Definition manual_in_minutes : Activity :=
  {| ServiceData := ServiceData manual;
     Name := Name manual;
     Notes := Notes manual;
     act_Type := act_Type manual;
     StartTime := StartTime manual;
     EndTime := EndTime manual;
     Private := Private manual;
     GPS := GPS manual;
     Stationary := Stationary manual;
     Stats :=
       {| Distance := Distance (Stats manual);
          TimerTime := stat (ActivityStatisticUnit.OtherUnit "min") (VNum 30);
          MovingTime := stat (ActivityStatisticUnit.OtherUnit "min") (VNum 25) |};
     Laps := [] |}.

(** The same activity with neither a timer time nor a moving time. *)
Definition untimed : Activity :=
  activity VNone (VNum 5000) VNone VNone [].

(** A waypoint in Munich with every field of a location. *)
Definition munich_waypoint : Waypoint :=
  {| Timestamp := Some (t0 + 500000);
     wp_Type := WaypointType.Regular;
     wp_Location := Some (mkLocation (VNum 48) (VNum 11) (VNum 500));
     HR := VNum 120;
     Speed := VNum 10;
     wp_Distance := VNone;
     Cadence := VNone;
     RunCadence := VNone;
     Power := VNone |}.

(** A session in the gym, which came from another service, recorded
    with one waypoint. *)
Definition gym : Activity :=
  {| ServiceData := [];
     Name := VStr "Weights";
     Notes := VNone;
     act_Type := ActivityType.Unlisted "Gym";
     StartTime := t0;
     EndTime := t0 + 1800 * second;
     Private := false;
     GPS := VBool true;
     Stationary := VBool true;
     Stats := Stats manual;
     Laps := [{| lap_Stats := Stats manual; lap_StartTime := t0;
                 lap_EndTime := t0 + 1800 * second;
                 Waypoints := [munich_waypoint] |}] |}.

(** An activity recorded with GPS, of one lap with [zero_waypoint]. *)
Definition recorded : Activity :=
  activity (VBool true) (VNum 5000) (VNum 1800) (VNum 1500)
    [{| lap_Stats := Stats manual; lap_StartTime := t0;
        lap_EndTime := t0 + 1800 * second;
        Waypoints := [zero_waypoint] |}].

(** The answer of the provider to an accepted upload. *)
Definition accepted : Response :=
  {| status_code := 200; text := "";
     json := Some (VDict [("AcId", VStr "7")]) |}.

(** Ten seconds after [token] was issued, with the token in the cache. *)
Definition fresh (answers : list (timedelta * Response)) : World :=
  world (t0 + 10 * second) (cached token) answers.

(** Ten seconds after [t0], with the expired token in the cache. *)
Definition lapsed (answers : list (timedelta * Response)) : World :=
  world (t0 + 10 * second) (cached (Authorization lapsed_account)) answers.

(** A point without a speed. *)
Definition halted_point : pyval :=
  VDict [("TimeStamp", VStr "2016-05-01T10:00:00Z"); ("Distance", VNum 0);
         ("Pause", VNone); ("Lat", VNum 48); ("Lon", VNum 11);
         ("Elevation", VNum 500); ("Power", VNone); ("Cadence", VNone);
         ("Steps", VNone); ("Speed", VNone); ("Heartrate", VNum 120)].

(** An item of the list of activities, and the list with this item. *)
Definition item : pyval :=
  VDict [("Id", VStr "42"); ("SportType", VStr "run");
         ("Distance", VNum 5000);
         ("StartDate", VStr "2016-05-01T10:00:00Z");
         ("EndDate", VStr "2016-05-01T10:00:03Z");
         ("Name", VStr "Morning run")].

Definition listing : Response :=
  {| status_code := 200; text := ""; json := Some (VList [item]) |}.

(** The answer of the provider to the question who the user is. *)
Definition userinfo : Response :=
  {| status_code := 200; text := "";
     json := Some (VDict [("Id", VStr "u")]) |}.

Definition redirect_uri : string :=
  "https://sync.example/auth/return/powertraxx".

(** Two callers for the account whose record has expired, and the
    order in which each of them reads the cache before either posts. *)
Definition two_callers : callers :=
  [(lapsed_account, Calling); (lapsed_account, Calling)].

Definition interleaved : list nat := [0; 1; 0; 1; 0; 1]%nat.

End Sample.

(** * Properties *)

(** ** Dict lookups *)

Lemma assoc_absent {B : Type} (k : string) (l : list (string * B)) :
  (forall v, ~ In (k, v) l) -> assoc String.eqb k l = None.
Proof.
  induction l as [|[k' v'] l IH]; intros Hk; simpl; [reflexivity|].
  destruct (String.eqb_spec k k') as [->|Hne].
  - exfalso. apply (Hk v'). now left.
  - apply IH. intros v Hin. apply (Hk v). now right.
Qed.

Lemma assoc_setitem_same {B : Type} (k : string) (v : B) (d : list (string * B)) :
  assoc String.eqb k (setitem k v d) = Some v.
Proof.
  induction d as [|[k' x] d IH]; simpl.
  - now rewrite String.eqb_refl.
  - destruct (String.eqb_spec k k') as [->|Hne]; simpl.
    + now rewrite String.eqb_refl.
    + destruct (String.eqb_spec k k'); [contradiction|exact IH].
Qed.

Lemma assoc_setitem_other {B : Type} (k k' : string) (v : B) (d : list (string * B)) :
  k <> k' -> assoc String.eqb k (setitem k' v d) = assoc String.eqb k d.
Proof.
  intros Hne. induction d as [|[k0 x] d IH]; simpl.
  - destruct (String.eqb_spec k k'); [contradiction|reflexivity].
  - destruct (String.eqb_spec k' k0) as [->|Hne0]; simpl.
    + destruct (String.eqb_spec k k0); [contradiction|reflexivity].
    + destruct (String.eqb_spec k k0); [reflexivity|exact IH].
Qed.

(** ** Sport types *)

(** C8.  The forward mapping of the Activity List Fetcher resolves every
    code of the fixed lookup table to the activity type the table gives
    for it, maps every other string to [Other], and the type of a
    listed activity is the forward mapping of the sport type of its
    item. *)
Theorem forwardMap_known_or_Other :
  (forall code ty,
      In (code, ty) _activityMappings -> forwardMap (VStr code) = Ok ty)
  /\ (forall code,
         (forall ty, ~ In (code, ty) _activityMappings) ->
         forwardMap (VStr code) = Ok ActivityType.Other)
  /\ (forall parse item activity,
         activity_of_item parse item = Ok activity ->
         exists sportType,
           getitem item "SportType" = Ok sportType
           /\ forwardMap sportType = Ok (act_Type activity)).
Proof.
  split; [|split].
  - intros code ty Hin. simpl in Hin.
    repeat (destruct Hin as [Heq|Hin];
            [injection Heq as <- <-; reflexivity|]).
    contradiction.
  - intros code Hno. unfold forwardMap, _activityMappings_get.
    now rewrite (assoc_absent _ _ Hno).
  - intros parse item activity. unfold activity_of_item, obind.
    destruct (getitem item "Id") as [id|]; [|discriminate].
    destruct (as_str id); [|discriminate].
    destruct (getitem item "SportType") as [sportType|]; [|discriminate].
    destruct (forwardMap sportType) as [ty|] eqn:Hty; [|discriminate].
    destruct (getitem item "Distance"); [|discriminate].
    destruct (getitem item "StartDate") as [sd|]; [|discriminate].
    destruct (parse_date parse sd); [|discriminate].
    destruct (getitem item "EndDate") as [ed|]; [|discriminate].
    destruct (parse_date parse ed); [|discriminate].
    destruct (getitem item "Name"); [|discriminate].
    intros [= <-]. exists sportType. simpl. now split.
Qed.

(** The table at work: a known code, and a code the table lacks. *)
Lemma forwardMap_known_or_Other_witness :
  forwardMap (VStr "racingbicycle") = Ok ActivityType.Cycling
  /\ forwardMap (VStr "yoga") = Ok ActivityType.Other.
Proof.
  destruct forwardMap_known_or_Other as (Hknown & Hother & _).
  split.
  - apply Hknown. simpl. tauto.
  - apply Hother. intros ty Hin. simpl in Hin.
    repeat (destruct Hin as [Heq|Hin]; [discriminate Heq|]).
    contradiction.
Defined.

(** ** Duration and pause of an upload without GPS *)

Section Resolve.

Variable convertValue :
  ActivityStatisticUnit.t -> ActivityStatisticUnit.t -> pyval -> pyval.

Lemma is_not_None_true (v : pyval) : v <> VNone -> is_not_None v = true.
Proof. destruct v; intros H; [contradiction| reflexivity ..]. Qed.

(** C6.  The duration is the timer time in seconds when that statistic
    has a value, else the moving time in seconds when that one has a
    value, else the seconds between start and end, which is the end
    time minus the start time, both in microseconds, over one million;
    the pause is the timer time minus the moving time, both in seconds,
    when both have a value, and zero as soon as one of them has
    none. *)
Theorem resolve_duration_and_pause (obj : Activity) :
  let timer := TimerTime (Stats obj) in
  let moving := MovingTime (Stats obj) in
  let seconds st := Value (asUnits convertValue st ActivityStatisticUnit.Seconds) in
  (Value timer <> VNone ->
   _resolveDuration convertValue obj = seconds timer)
  /\ (Value timer = VNone -> Value moving <> VNone ->
      _resolveDuration convertValue obj = seconds moving)
  /\ (Value timer = VNone -> Value moving = VNone ->
      _resolveDuration convertValue obj
      = VNum ((EndTime obj - StartTime obj) # 1000000))
  /\ (forall x y : Q,
         Value timer <> VNone -> Value moving <> VNone ->
         seconds timer = VNum x -> seconds moving = VNum y ->
         _resolvePause convertValue obj = Ok (VNum (x - y)%Q))
  /\ (Value timer = VNone \/ Value moving = VNone ->
      _resolvePause convertValue obj = Ok (VNum 0)).
Proof.
  cbv zeta. unfold _resolveDuration, _resolvePause.
  repeat split.
  - intros Ht. now rewrite (is_not_None_true _ Ht).
  - intros Ht Hm. now rewrite Ht, (is_not_None_true _ Hm).
  - intros Ht Hm. now rewrite Ht, Hm.
  - intros x y Ht Hm Hx Hy.
    rewrite (is_not_None_true _ Ht), (is_not_None_true _ Hm). simpl.
    now rewrite Hx, Hy.
  - intros [Ht|Hm].
    + now rewrite Ht.
    + rewrite Hm. now rewrite andb_false_r.
Qed.

End Resolve.

(** An activity timed in minutes, 30 on the timer and 25 moving: 1800
    seconds of duration and 300 seconds of pause.  The same activity
    without either statistic, from 10:00:00 to 10:30:00: the 1800
    seconds between start and end. *)
Lemma resolve_duration_and_pause_witness :
  _resolveDuration Sample.convertValue Sample.manual_in_minutes = VNum (30 * 60)%Q
  /\ _resolvePause Sample.convertValue Sample.manual_in_minutes
     = Ok (VNum (30 * 60 - 25 * 60)%Q)
  /\ EndTime Sample.untimed - StartTime Sample.untimed = 1800 * 1000000
  /\ _resolveDuration Sample.convertValue Sample.untimed
     = VNum (1800000000 # 1000000)
  /\ (1800000000 # 1000000 == 1800)%Q
  /\ _resolvePause Sample.convertValue Sample.untimed = Ok (VNum 0).
Proof.
  destruct (resolve_duration_and_pause Sample.convertValue Sample.manual_in_minutes)
    as (Hd & _ & _ & Hp & _).
  destruct (resolve_duration_and_pause Sample.convertValue Sample.untimed)
    as (_ & _ & Hfallback & _ & Hzero).
  split; [rewrite Hd; [reflexivity | discriminate]|].
  split; [apply Hp; [discriminate | discriminate | reflexivity | reflexivity]|].
  split; [reflexivity|].
  split; [rewrite Hfallback; reflexivity|].
  split; [reflexivity|].
  apply Hzero. now left.
Defined.

(** ** The payload of an upload without GPS *)

Section Summary.

Variable isoformat : datetime -> string.
Variable convertValue :
  ActivityStatisticUnit.t -> ActivityStatisticUnit.t -> pyval -> pyval.

(** Whenever the activity has a distance statistic, the distance of the
    payload is a list of one element. *)
Lemma summary_distance (activity : Activity) (d : ActivityStatistic)
  (data : list (string * pyval)) :
  Distance (Stats activity) = Some d ->
  activity_data_summary isoformat convertValue activity = Ok data ->
  assoc String.eqb "distance" data
  = Some (VList [Value (asUnits convertValue d ActivityStatisticUnit.Meters)]).
Proof.
  intros Hd. unfold activity_data_summary, obind.
  destruct (_resolvePause convertValue activity); [|discriminate].
  destruct (reverseMap (act_Type activity)); [|discriminate].
  rewrite Hd. intros [= <-]. reflexivity.
Qed.

End Summary.

(** C7.  The upload of an activity without GPS and with a distance of
    5000 m succeeds, and the one request it sends carries the distance
    as the array [[5000]], not as the number 5000. *)
Theorem upload_distance_is_an_array :
  fst (UploadActivity Sample.client_id Sample.client_secret Sample.repr
         Sample.isoformat Sample.utcoffset Sample.convertValue
         Sample.account Sample.manual (Sample.fresh [(0, Sample.accepted)]))
  = Ok (VStr "7")
  /\ map data
       (sent (snd (UploadActivity Sample.client_id Sample.client_secret
                     Sample.repr Sample.isoformat Sample.utcoffset
                     Sample.convertValue Sample.account Sample.manual
                     (Sample.fresh [(0, Sample.accepted)]))))
     = [VDict [("name", VStr "Morning run"); ("comment", VNone);
               ("date", VStr "1462096800000000"); ("share", VBool true);
               ("duration", VNum 1800); ("pause", VNum 300);
               ("sportType", VNum 4); ("distance", VList [VNum 5000])]].
Proof. split; vm_compute; reflexivity. Qed.

(** ** The point records of an upload with GPS *)




Section Points.

Variable utcoffset : Z -> Z.


End Points.



(** ** The token lifecycle *)

Lemma round_half_even_whole (q : Q) : Qden q = 1%positive -> round_half_even q = Qnum q.
Proof.
  destruct q as [a d]. simpl. intros ->.
  unfold round_half_even, Qfloor. rewrite Z.div_1_r.
  assert (H : Qcompare ((a # 1) - inject_Z a) (1 # 2) = Lt).
  { unfold Qcompare. simpl. apply Z.compare_lt_iff. lia. }
  now rewrite H.
Qed.

Lemma timedelta_seconds_integer (n : Z) :
  timedelta_seconds (inject_Z n - 30) = (n - 30) * 1000000.
Proof.
  unfold timedelta_seconds. rewrite round_half_even_whole; [|reflexivity].
  simpl. lia.
Qed.

Section Tokens.

Variable POWERTRAXX_CLIENT_ID : string.
Variable POWERTRAXX_CLIENT_SECRET : string.
Variable repr : pyval -> string.

Local Abbreviation getAuthHeaders :=
  (_getAuthHeaders POWERTRAXX_CLIENT_ID POWERTRAXX_CLIENT_SECRET repr).
Local Abbreviation token_request_ :=
  (token_request POWERTRAXX_CLIENT_ID POWERTRAXX_CLIENT_SECRET).

(** Reading the cache changes nothing and does not fail. *)
Lemma SessionCache_Get_pure (pk : string) (w : World) :
  exists authInfo, SessionCache_Get pk w = (Ok authInfo, w).
Proof.
  unfold SessionCache_Get.
  destruct (tokenCache w !! pk) as [[item written]|]; [|now eexists].
  destruct (now w <? written + _tokenCache_lifetime); now eexists.
Qed.

(** Neither does the test that follows. *)
Lemma refresh_due_pure (sr : ServiceRecord) (w : World) :
  snd (refresh_due sr w) = w.
Proof.
  unfold refresh_due, bind.
  destruct (SessionCache_Get_pure (ExternalID sr) w) as [authInfo ->].
  unfold needs_refresh.
  destruct (negb (truthy (fst (credentials sr authInfo)))); [reflexivity|].
  destruct (snd (credentials sr authInfo)); reflexivity.
Qed.

(** With an entry in the cache and a true access token in the service
    record, the token is refreshed exactly when the expiration date of
    the service record lies before the current time. *)
Lemma refresh_due_cached (sr : ServiceRecord) (w : World) (item : TokenItem) :
  fst (SessionCache_Get (ExternalID sr) w) = Ok (Some item) ->
  truthy (AccessToken (Authorization sr)) = true ->
  refresh_due sr w = (Ok (ExpirationDate (Authorization sr) <? now w), w).
Proof.
  intros Hget Htok. unfold refresh_due, bind.
  destruct (SessionCache_Get_pure (ExternalID sr) w) as [authInfo Hpure].
  rewrite Hpure in *. simpl in Hget. injection Hget as ->.
  simpl. unfold needs_refresh. now rewrite Htok.
Qed.

(** Without an entry in the cache the token is refreshed. *)
Lemma refresh_due_uncached (sr : ServiceRecord) (w : World) :
  fst (SessionCache_Get (ExternalID sr) w) = Ok None ->
  refresh_due sr w = (Ok true, w).
Proof.
  intros Hget. unfold refresh_due, bind.
  destruct (SessionCache_Get_pure (ExternalID sr) w) as [authInfo Hpure].
  rewrite Hpure in *. simpl in Hget. injection Hget as ->. reflexivity.
Qed.

(** [_getAuthHeaders] when the token is due for a refresh: the grant is
    posted and the answer handled. *)
Lemma getAuthHeaders_refreshing (sr : ServiceRecord) (w : World) :
  fst (refresh_due sr w) = Ok true ->
  getAuthHeaders sr w
  = bind (requests (token_request_ sr))
      (refreshed sr) w.
Proof.
  unfold refresh_due, _getAuthHeaders, bind.
  destruct (SessionCache_Get_pure (ExternalID sr) w) as [authInfo ->].
  destruct (needs_refresh _ _ w) as [[stale|e] w1] eqn:Hn; simpl;
    [|discriminate].
  intros [= ->].
  assert (Hw : w1 = w).
  { unfold needs_refresh in Hn.
    destruct (negb (truthy (fst (credentials sr authInfo)))).
    - now injection Hn.
    - destruct (snd (credentials sr authInfo)); now injection Hn. }
  now subst.
Qed.

(** [_getAuthHeaders] when it is not: the header comes from the service
    record and nothing else happens. *)
Lemma getAuthHeaders_kept (sr : ServiceRecord) (w : World) :
  fst (refresh_due sr w) = Ok false ->
  getAuthHeaders sr w
  = (Ok [("Authorization",
          "Bearer " ++ str repr (AccessToken (Authorization sr)))], w).
Proof.
  unfold refresh_due, _getAuthHeaders, bind.
  destruct (SessionCache_Get_pure (ExternalID sr) w) as [authInfo ->].
  unfold needs_refresh.
  destruct authInfo as [item|]; simpl; [|discriminate].
  destruct (truthy (AccessToken (Authorization sr))); simpl; [|discriminate].
  unfold bind, utcnow, ret. simpl. now intros [= ->].
Qed.

(** C2.  When the refresh exchange is answered with a status other than
    200, [_getAuthHeaders] fails: for a status from 400 to 499 with an
    error that blocks the account and carries an Authorization user
    exception with intervention required, for any other status with the
    generic error, which does not block and carries no user
    exception. *)
Theorem refresh_rejected (sr : ServiceRecord) (w : World) (dt : timedelta)
  (response : Response) (rest : list (timedelta * Response)) :
  fst (refresh_due sr w) = Ok true ->
  replies w = (dt, response) :: rest ->
  status_code response <> 200 ->
  exists e,
    fst (getAuthHeaders sr w) = Raised (APIError e)
    /\ (400 <= status_code response < 500 ->
        block e = true
        /\ user_exception e
           = Some {| ue_type := UserExceptionType.Authorization;
                     intervention_required := true |})
    /\ (~ 400 <= status_code response < 500 ->
        block e = false /\ user_exception e = None).
Proof.
  intros Hdue Hreply Hstatus.
  rewrite (getAuthHeaders_refreshing _ _ Hdue).
  unfold bind, requests. rewrite Hreply. unfold refreshed.
  destruct (Z.eqb_spec (status_code response) 200) as [|_]; [contradiction|].
  simpl negb. cbv iota.
  destruct (Z.leb_spec 400 (status_code response)) as [Hlo|Hlo];
    destruct (Z.ltb_spec (status_code response) 500) as [Hhi|Hhi];
    simpl andb; cbv iota; unfold raise; simpl;
    eexists; (split; [reflexivity|]); simpl; split; intros H;
    first [lia | now split | (exfalso; apply H; lia)].
Qed.

(** C4, as the code has it.  With an entry for the account in the token
    cache, a true access token in the service record and a current time
    that is not after the expiration date of the service record,
    [_getAuthHeaders] returns the header built from the access token of
    the service record and leaves the world as it is: no request is
    sent.  The cached entry is tested for presence only; where it is
    the record of the account, the header is built from its token. *)
Theorem cached_token_headers (sr : ServiceRecord) (w : World) (item : TokenItem) :
  fst (SessionCache_Get (ExternalID sr) w) = Ok (Some item) ->
  truthy (AccessToken (Authorization sr)) = true ->
  now w <= ExpirationDate (Authorization sr) ->
  getAuthHeaders sr w
  = (Ok [("Authorization",
          "Bearer " ++ str repr (AccessToken (Authorization sr)))], w)
  /\ (Authorization sr = item ->
      fst (getAuthHeaders sr w)
      = Ok [("Authorization", "Bearer " ++ str repr (AccessToken item))]).
Proof.
  intros Hget Htok Hnow.
  assert (Hkept : getAuthHeaders sr w
                  = (Ok [("Authorization",
                          "Bearer " ++ str repr (AccessToken (Authorization sr)))],
                     w)).
  { apply getAuthHeaders_kept.
    rewrite (refresh_due_cached _ _ _ Hget Htok). simpl.
    destruct (Z.ltb_spec (ExpirationDate (Authorization sr)) (now w));
      [lia | reflexivity]. }
  split; [exact Hkept|].
  intros <-. now rewrite Hkept.
Qed.

(** What [_getTokenFromResponse] makes of a well-formed answer. *)
Lemma getTokenFromResponse_ok (response : Response) (w : World)
  (j e tok rt : pyval) (q : Q) :
  json response = Some j ->
  getitem j "expires_in" = Ok e ->
  as_number e = Some q ->
  getitem j "access_token" = Ok tok ->
  getitem j "refresh_token" = Ok rt ->
  _getTokenFromResponse response w
  = (Ok {| AccessToken := tok; RefreshToken := rt;
           ExpirationDate := now w + timedelta_seconds (q - 30) |}, w).
Proof.
  intros Hj He Hq Htok Hrt.
  unfold _getTokenFromResponse, bind, lift, json_of, py_sub, utcnow, ret.
  now rewrite Hj, He, Hq, Htok, Hrt.
Qed.

(** What [_getAuthHeaders] does with a granted refresh: the new record
    goes to the cache and to the stored service record, and the last
    assignment fails. *)
Lemma refreshed_granted (sr : ServiceRecord) (response : Response) (w : World)
  (j e tok rt : pyval) (q : Q) :
  status_code response = 200 ->
  json response = Some j ->
  getitem j "expires_in" = Ok e ->
  as_number e = Some q ->
  getitem j "access_token" = Ok tok ->
  getitem j "refresh_token" = Ok rt ->
  let item :=
    {| AccessToken := tok; RefreshToken := rt;
       ExpirationDate := now w + timedelta_seconds (q - 30) |} in
  refreshed sr response w
  = (Raised (AttributeError "AccessToken"),
     {| now := now w;
        tokenCache := <[ExternalID sr := (item, now w)]> (tokenCache w);
        serviceRecords := <[ExternalID sr := item]> (serviceRecords w);
        sent := sent w; replies := replies w |}).
Proof.
  intros Hstatus Hj He Hq Htok Hrt. cbv zeta.
  unfold refreshed. rewrite Hstatus.
  change (negb (200 =? 200)) with false. cbv iota.
  unfold bind at 1.
  rewrite (getTokenFromResponse_ok _ _ _ _ _ _ _ Hj He Hq Htok Hrt).
  reflexivity.
Qed.

(** C3, as the code has it.  After a successful refresh exchange the
    record stored in the token cache, and the one handed to the stored
    service record, expire at the time of issue plus [expires_in] minus
    30 seconds; every exchange computes the expiry in this way.  For a
    token declared to last 60 seconds that is 30 seconds after issue,
    and the expiry check takes the token for expired exactly when the
    current time is later than that: at 30 seconds sharp it still
    passes. *)
Theorem expiry_buffer (sr : ServiceRecord) (w : World) (dt : timedelta)
  (response : Response) (rest : list (timedelta * Response))
  (j e tok rt : pyval) (q : Q) :
  fst (refresh_due sr w) = Ok true ->
  replies w = (dt, response) :: rest ->
  status_code response = 200 ->
  json response = Some j ->
  getitem j "expires_in" = Ok e ->
  as_number e = Some q ->
  getitem j "access_token" = Ok tok ->
  getitem j "refresh_token" = Ok rt ->
  let issued := now w + dt in
  let item :=
    {| AccessToken := tok; RefreshToken := rt;
       ExpirationDate := issued + timedelta_seconds (q - 30) |} in
  let w' := snd (getAuthHeaders sr w) in
  tokenCache w' !! ExternalID sr = Some (item, issued)
  /\ serviceRecords w' !! ExternalID sr = Some item
  /\ (forall w1,
         _getTokenFromResponse response w1
         = (Ok {| AccessToken := tok; RefreshToken := rt;
                  ExpirationDate := now w1 + timedelta_seconds (q - 30) |}, w1))
  /\ (forall n : Z,
         q = inject_Z n -> ExpirationDate item = issued + (n - 30) * 1000000)
  /\ (q = 60%Q ->
      forall (holder : ServiceRecord) (w1 : World) (cached : TokenItem),
        Authorization holder = item ->
        fst (SessionCache_Get (ExternalID holder) w1) = Ok (Some cached) ->
        truthy tok = true ->
        fst (refresh_due holder w1) = Ok (issued + 30 * 1000000 <? now w1)).
Proof.
  intros Hdue Hreply Hstatus Hj He Hq Htok Hrt. cbv zeta.
  rewrite (getAuthHeaders_refreshing _ _ Hdue).
  unfold bind, requests. rewrite Hreply.
  rewrite (refreshed_granted sr _ _ _ _ _ _ _ Hstatus Hj He Hq Htok Hrt).
  cbn [snd now tokenCache serviceRecords].
  split; [apply lookup_insert_eq|].
  split; [apply lookup_insert_eq|].
  split; [intros w1; exact (getTokenFromResponse_ok _ w1 _ _ _ _ _ Hj He Hq Htok Hrt)|].
  split.
  - intros n ->. simpl. now rewrite timedelta_seconds_integer.
  - intros -> holder w1 cached Hholder Hget Htruthy.
    rewrite (refresh_due_cached holder w1 cached Hget)
      by (rewrite Hholder; exact Htruthy).
    rewrite Hholder. simpl.
    change (60 - 30)%Q with (inject_Z 60 - 30)%Q.
    now rewrite timedelta_seconds_integer.
Qed.

End Tokens.

(** A refresh answered with 401. *)
Lemma refresh_rejected_witness :
  exists e,
    fst (_getAuthHeaders Sample.client_id Sample.client_secret Sample.repr
           Sample.lapsed_account
           (Sample.fresh [(0, Sample.answer 401 None)]))
    = Raised (APIError e)
    /\ (400 <= status_code (Sample.answer 401 None) < 500 ->
        block e = true
        /\ user_exception e
           = Some {| ue_type := UserExceptionType.Authorization;
                     intervention_required := true |})
    /\ (~ 400 <= status_code (Sample.answer 401 None) < 500 ->
        block e = false /\ user_exception e = None).
Proof.
  apply (refresh_rejected Sample.client_id Sample.client_secret Sample.repr
           Sample.lapsed_account _ 0 (Sample.answer 401 None) []).
  - vm_compute. reflexivity.
  - reflexivity.
  - simpl. lia.
Defined.

(** The cached token ten seconds after its issue. *)
Lemma cached_token_headers_witness :
  _getAuthHeaders Sample.client_id Sample.client_secret Sample.repr
    Sample.account (Sample.fresh [])
  = (Ok [("Authorization",
          "Bearer " ++ str Sample.repr (AccessToken (Authorization Sample.account)))],
     Sample.fresh [])
  /\ (Authorization Sample.account = Sample.token ->
      fst (_getAuthHeaders Sample.client_id Sample.client_secret Sample.repr
             Sample.account (Sample.fresh []))
      = Ok [("Authorization", "Bearer " ++ str Sample.repr (AccessToken Sample.token))]).
Proof.
  apply (cached_token_headers Sample.client_id Sample.client_secret Sample.repr
           Sample.account (Sample.fresh []) Sample.token).
  - vm_compute. reflexivity.
  - reflexivity.
  - vm_compute. discriminate.
Defined.

(** C4, as stated, fails.  The cache holds the token "A", which has not
    expired, and the header is built from the token "B" of the service
    record; and where the service record has expired the token is
    exchanged although the cached one has not. *)
Lemma header_comes_from_service_record :
  fst (SessionCache_Get "u" (Sample.fresh [])) = Ok (Some Sample.token)
  /\ now (Sample.fresh []) < ExpirationDate Sample.token
  /\ fst (_getAuthHeaders Sample.client_id Sample.client_secret Sample.repr
            Sample.other_account (Sample.fresh []))
     = Ok [("Authorization", "Bearer B")]
  /\ sent (snd (_getAuthHeaders Sample.client_id Sample.client_secret Sample.repr
                  Sample.lapsed_account (Sample.fresh [(0, Sample.granted)])))
     = [token_request Sample.client_id Sample.client_secret Sample.lapsed_account].
Proof. repeat split; vm_compute; reflexivity. Qed.

(** A refresh granted for 60 seconds, five seconds under way. *)
Lemma expiry_buffer_witness :
  tokenCache
    (snd (_getAuthHeaders Sample.client_id Sample.client_secret Sample.repr
            Sample.lapsed_account
            (Sample.fresh [(5 * Sample.second, Sample.granted)])))
    !! "u"
  = Some ({| AccessToken := VStr "B"; RefreshToken := VStr "S";
             ExpirationDate :=
               (Sample.t0 + 10 * Sample.second + 5 * Sample.second)
               + timedelta_seconds (60 - 30) |},
          Sample.t0 + 10 * Sample.second + 5 * Sample.second).
Proof.
  apply (expiry_buffer Sample.client_id Sample.client_secret Sample.repr
           Sample.lapsed_account
           (Sample.fresh [(5 * Sample.second, Sample.granted)])
           (5 * Sample.second) Sample.granted []
           (VDict [("access_token", VStr "B"); ("refresh_token", VStr "S");
                   ("expires_in", VNum 60)])
           (VNum 60) (VStr "B") (VStr "S") 60%Q);
    reflexivity.
Defined.

(** C3, as stated, fails at 30 seconds sharp.  The token granted at
    [t0] for 60 seconds expires at [t0] plus 30 seconds, and a call at
    that very time still takes it for valid: the header is returned
    and no request is sent. *)
Lemma valid_at_thirty_seconds :
  fst (_getTokenFromResponse Sample.granted (Sample.world Sample.t0 ∅ []))
  = Ok Sample.issued
  /\ ExpirationDate Sample.issued = Sample.t0 + 30 * Sample.second
  /\ fst (refresh_due Sample.renewed_account
            (Sample.world (Sample.t0 + 30 * Sample.second)
               (Sample.cached Sample.issued) []))
     = Ok false
  /\ _getAuthHeaders Sample.client_id Sample.client_secret Sample.repr
       Sample.renewed_account
       (Sample.world (Sample.t0 + 30 * Sample.second)
          (Sample.cached Sample.issued) [])
     = (Ok [("Authorization", "Bearer B")],
        Sample.world (Sample.t0 + 30 * Sample.second)
          (Sample.cached Sample.issued) []).
Proof. repeat split; vm_compute; reflexivity. Qed.

(** ** Download *)

Section Download.

Variable POWERTRAXX_CLIENT_ID : string.
Variable POWERTRAXX_CLIENT_SECRET : string.
Variable repr : pyval -> string.
Variable parse : string -> option datetime.

Local Abbreviation getAuthHeaders :=
  (_getAuthHeaders POWERTRAXX_CLIENT_ID POWERTRAXX_CLIENT_SECRET repr).
Local Abbreviation downloadActivity :=
  (_downloadActivity POWERTRAXX_CLIENT_ID POWERTRAXX_CLIENT_SECRET repr parse).

(** A decodable point becomes a waypoint, tagged by the rule of the
    loop. *)
Lemma waypoint_of_point_decodable (last : option Waypoint) (wp pause : pyval) :
  decodable parse wp ->
  getitem wp "Pause" = Ok pause ->
  exists w,
    waypoint_of_point parse last wp = Ok w
    /\ wp_Type w = waypoint_type pause last.
Proof.
  intros ((s & t & Hts & Hparse) & (v & q & Hspeed & Hq) & Hkeys) Hpause.
  repeat match goal with
         | H : Forall _ (_ :: _) |- _ =>
             apply Forall_cons_iff in H; destruct H as [[? ?] H]
         end.
  unfold waypoint_of_point, obind, parse_date, py_div.
  rewrite Hts, Hparse.
  repeat match goal with
         | H : getitem wp ?k = Ok _ |- context [getitem wp ?k] => rewrite H
         end.
  rewrite Hq. eexists. split; [reflexivity|].
  simpl. congruence.
Qed.


End Download.

Ltac sample_decodable :=
  unfold decodable; split;
  [do 2 eexists; split; reflexivity
  |split;
   [do 2 eexists; split; reflexivity
   |repeat (constructor; [eexists; reflexivity|]); constructor]].


(** ** Answers with status 401 *)

Section Unauthorized.

Variable POWERTRAXX_CLIENT_ID : string.
Variable POWERTRAXX_CLIENT_SECRET : string.
Variable repr : pyval -> string.
Variable parse : string -> option datetime.
Variable isoformat : datetime -> string.
Variable utcoffset : Z -> Z.
Variable convertValue :
  ActivityStatisticUnit.t -> ActivityStatisticUnit.t -> pyval -> pyval.

Local Abbreviation getAuthHeaders :=
  (_getAuthHeaders POWERTRAXX_CLIENT_ID POWERTRAXX_CLIENT_SECRET repr).
Local Abbreviation downloadActivity :=
  (_downloadActivity POWERTRAXX_CLIENT_ID POWERTRAXX_CLIENT_SECRET repr parse).
Local Abbreviation uploadActivity :=
  (UploadActivity POWERTRAXX_CLIENT_ID POWERTRAXX_CLIENT_SECRET repr
     isoformat utcoffset convertValue).

(** The answer 401 to the post of a payload. *)
Lemma post_activity_401 (sr : ServiceRecord) (data : list (string * pyval))
  (w w1 : World) (hdrs : list (string * string)) (dt : timedelta)
  (response : Response) (rest : list (timedelta * Response)) :
  getAuthHeaders sr w = (Ok hdrs, w1) ->
  replies w1 = (dt, response) :: rest ->
  status_code response = 401 ->
  fst (post_activity POWERTRAXX_CLIENT_ID POWERTRAXX_CLIENT_SECRET repr sr data w)
  = Raised (APIError
              {| message := "ST.mobi trial expired";
                 block := true;
                 user_exception :=
                   Some {| ue_type := UserExceptionType.AccountExpired;
                           intervention_required := true |} |}).
Proof.
  intros Hauth Hreply Hstatus.
  unfold post_activity, bind. rewrite Hauth.
  unfold requests. rewrite Hreply, Hstatus. reflexivity.
Qed.

(** C5, as the code has it.  Once the headers are there and the
    provider answers the request with 401, [UploadActivity] fails, in
    the mode without GPS and in the mode with GPS alike, with an error
    that blocks the account and carries an AccountExpired user
    exception with intervention required; and [DownloadActivity] fails
    on 401 and on 403 with an error that blocks the account and carries
    an Authorization user exception with intervention required.
    [DeleteActivity] has no case for 401: it fails with the HTTP error
    of the transport. *)
Theorem unauthorized_upload_and_download (sr : ServiceRecord) (activity : Activity)
  (w w1 : World) (hdrs : list (string * string)) (dt : timedelta)
  (response : Response) (rest : list (timedelta * Response)) :
  getAuthHeaders sr w = (Ok hdrs, w1) ->
  replies w1 = (dt, response) :: rest ->
  (status_code response = 401 ->
   forall data,
     (truthy (GPS activity) = false
      /\ activity_data_summary isoformat convertValue activity = Ok data)
     \/ (truthy (GPS activity) = true
         /\ activity_data_points isoformat utcoffset activity = Ok data) ->
     fst (uploadActivity sr activity w)
     = Raised (APIError
                 {| message := "ST.mobi trial expired";
                    block := true;
                    user_exception :=
                      Some {| ue_type := UserExceptionType.AccountExpired;
                              intervention_required := true |} |}))
  /\ (status_code response = 401 \/ status_code response = 403 ->
      forall id,
        getitem (VDict (ServiceData activity)) "ActivityID" = Ok (VStr id) ->
        fst (downloadActivity sr activity w)
        = Raised (APIError
                    {| message := "No authorization to download activity" ++ id;
                       block := true;
                       user_exception :=
                         Some {| ue_type := UserExceptionType.Authorization;
                                 intervention_required := true |} |}))
  /\ (status_code response = 401 ->
      forall uploadId,
        fst (DeleteActivity POWERTRAXX_CLIENT_ID POWERTRAXX_CLIENT_SECRET repr
               sr uploadId w)
        = Raised (HTTPError 401)).
Proof.
  intros Hauth Hreply. split; [|split].
  - intros Hstatus data [[Hgps Hdata]|[Hgps Hdata]];
      unfold UploadActivity; rewrite Hgps; simpl negb; cbv iota;
      unfold bind at 1, lift; rewrite Hdata;
      now apply (post_activity_401 sr data w w1 hdrs dt response rest).
  - intros Hstatus id Hid.
    unfold _downloadActivity, bind, lift. rewrite Hid, Hauth. simpl as_str.
    cbv iota beta. unfold requests. rewrite Hreply.
    destruct Hstatus as [-> | ->]; reflexivity.
  - intros Hstatus uploadId.
    unfold DeleteActivity, bind. rewrite Hauth.
    unfold requests. rewrite Hreply.
    unfold raise_for_status. now rewrite Hstatus.
Qed.

End Unauthorized.

(** The sample upload without GPS, answered with 401. *)
Lemma unauthorized_upload_and_download_witness :
  fst (UploadActivity Sample.client_id Sample.client_secret Sample.repr
         Sample.isoformat Sample.utcoffset Sample.convertValue
         Sample.account Sample.manual
         (Sample.fresh [(0, Sample.answer 401 None)]))
  = Raised (APIError
              {| message := "ST.mobi trial expired";
                 block := true;
                 user_exception :=
                   Some {| ue_type := UserExceptionType.AccountExpired;
                           intervention_required := true |} |}).
Proof.
  destruct (unauthorized_upload_and_download
              Sample.client_id Sample.client_secret Sample.repr Sample.parse
              Sample.isoformat Sample.utcoffset Sample.convertValue
              Sample.account Sample.manual
              (Sample.fresh [(0, Sample.answer 401 None)])
              (Sample.fresh [(0, Sample.answer 401 None)])
              [("Authorization", "Bearer A")] 0 (Sample.answer 401 None) [])
    as (Hupload & _ & _); [reflexivity | reflexivity |].
  apply (Hupload eq_refl
           [("name", VStr "Morning run"); ("comment", VNone);
            ("date", VStr "1462096800000000"); ("share", VBool true);
            ("duration", VNum 1800); ("pause", VNum 300);
            ("sportType", VNum 4); ("distance", VList [VNum 5000])]).
  left. split; reflexivity.
Defined.

(** C5, as stated, fails outside upload and download.  The list of
    activities answered with 401 and an empty array is returned as an
    empty list, with no failure at all, and the deletion answered with
    401 fails with the HTTP error of the transport, which does not
    block the account. *)
Lemma unauthorized_list_is_silent :
  fst (DownloadActivityList Sample.client_id Sample.client_secret Sample.repr
         Sample.parse Sample.account false
         (Sample.fresh [(0, Sample.answer 401 (Some (VList [])))]))
  = Ok ([], [])
  /\ fst (DeleteActivity Sample.client_id Sample.client_secret Sample.repr
            Sample.account (VStr "7")
            (Sample.fresh [(0, Sample.answer 401 None)]))
     = Raised (HTTPError 401).
Proof. split; vm_compute; reflexivity. Qed.

(** ** Several callers at once *)

Section Callers.

Variable POWERTRAXX_CLIENT_ID : string.
Variable POWERTRAXX_CLIENT_SECRET : string.
Variable repr : pyval -> string.

Local Abbreviation getAuthHeaders :=
  (_getAuthHeaders POWERTRAXX_CLIENT_ID POWERTRAXX_CLIENT_SECRET repr).
Local Abbreviation advance_ :=
  (advance POWERTRAXX_CLIENT_ID POWERTRAXX_CLIENT_SECRET repr).
Local Abbreviation step_ :=
  (step POWERTRAXX_CLIENT_ID POWERTRAXX_CLIENT_SECRET repr).
Local Abbreviation schedule_ :=
  (schedule POWERTRAXX_CLIENT_ID POWERTRAXX_CLIENT_SECRET repr).
Local Abbreviation token_request_ :=
  (token_request POWERTRAXX_CLIENT_ID POWERTRAXX_CLIENT_SECRET).

(** A caller that runs alone does what [_getAuthHeaders] does. *)
Lemma run_alone_getAuthHeaders (sr : ServiceRecord) (w : World) :
  run_alone POWERTRAXX_CLIENT_ID POWERTRAXX_CLIENT_SECRET repr 3 sr Calling w
  = (Finished (fst (getAuthHeaders sr w)), snd (getAuthHeaders sr w)).
Proof.
  unfold _getAuthHeaders, bind. simpl.
  destruct (SessionCache_Get (ExternalID sr) w) as [[authInfo|e] w1];
    [|reflexivity].
  destruct (needs_refresh _ _ w1) as [[[|]|e] w2]; try reflexivity.
  simpl.
  destruct (requests (token_request_ sr) w2) as [[response|e] w3];
    [|reflexivity].
  simpl. now destruct (refreshed sr response w3).
Qed.

(** A schedule is a run of the step relation. *)
Lemma schedule_sound (order : list nat) (cs : callers) (w : World)
  (s : callers * World) :
  schedule_ order cs w = Some s -> rtc step_ (cs, w) s.
Proof.
  revert cs w. induction order as [|i order IH]; intros cs w; simpl.
  - intros [= <-]. apply rtc_refl.
  - destruct (cs !! i) as [[sr ph]|] eqn:Hi; [|discriminate].
    destruct (advance_ sr ph w) as [[ph' w']|] eqn:Ha; [|discriminate].
    intros Hrest. eapply rtc_l; [|apply IH; exact Hrest].
    now apply (step_caller _ _ _ i cs sr ph ph' w w').
Qed.

Lemma is_token_request_token_request (sr : ServiceRecord) :
  is_token_request (token_request_ sr) = true.
Proof. reflexivity. Qed.

Lemma exchanges_sent (w w' : World) : sent w' = sent w -> exchanges w' = exchanges w.
Proof. unfold exchanges. now intros ->. Qed.

(** The steps of a caller, one by one. *)

Lemma advance_Calling_stale (sr : ServiceRecord) (w : World) :
  stale_record sr w -> advance_ sr Calling w = Some (Exchanging, w).
Proof.
  intros Hstale. unfold advance.
  destruct (SessionCache_Get_pure (ExternalID sr) w) as [authInfo ->].
  destruct authInfo as [item|]; simpl; [|reflexivity].
  unfold needs_refresh.
  destruct (truthy (AccessToken (Authorization sr))) eqn:Htok; simpl;
    [|reflexivity].
  destruct Hstale as [Hfalse|Hlt]; [congruence|].
  unfold bind, utcnow, ret.
  destruct (Z.ltb_spec (ExpirationDate (Authorization sr)) (now w));
    [reflexivity|lia].
Qed.

Lemma advance_Exchanging (sr : ServiceRecord) (w : World) :
  causal w ->
  exists ph' w',
    advance_ sr Exchanging w = Some (ph', w')
    /\ posted ph' = 1%nat
    /\ exchanges w' = S (exchanges w)
    /\ now w <= now w'
    /\ causal w'.
Proof.
  intros Hcausal. unfold advance, requests, causal in *.
  assert (Hsent : forall l : list Request,
             length (filter (fun r => is_token_request r = true)
                       (l ++ [token_request_ sr])%list)
             = S (length (filter (fun r => is_token_request r = true) l))).
  { intros l. rewrite filter_app, length_app.
    rewrite filter_cons_True by apply is_token_request_token_request.
    rewrite filter_nil. simpl. lia. }
  destruct (replies w) as [|[dt response] rest] eqn:Hreplies.
  - do 2 eexists. split; [reflexivity|].
    unfold exchanges. simpl. rewrite Hsent.
    repeat split; [lia | constructor].
  - apply Forall_cons_1 in Hcausal. destruct Hcausal as [Hdt Hrest].
    simpl in Hdt.
    do 2 eexists. split; [reflexivity|].
    unfold exchanges. simpl. rewrite Hsent.
    repeat split; [lia | exact Hrest].
Qed.

Lemma getTokenFromResponse_world (response : Response) (w : World) :
  snd (_getTokenFromResponse response w) = w.
Proof.
  unfold _getTokenFromResponse, bind, lift, utcnow, ret.
  destruct (json_of response) as [j|]; [|reflexivity].
  destruct (getitem j "expires_in") as [e|]; [|reflexivity].
  destruct (py_sub e 30); [|reflexivity].
  destruct (getitem j "access_token"); [|reflexivity].
  destruct (getitem j "refresh_token"); reflexivity.
Qed.

Lemma advance_Storing (sr : ServiceRecord) (response : Response) (w : World) :
  exists result w',
    advance_ sr (Storing response) w = Some (Finished result, w')
    /\ sent w' = sent w /\ now w' = now w /\ replies w' = replies w.
Proof.
  unfold advance, refreshed.
  destruct (negb (status_code response =? 200)).
  - destruct ((400 <=? status_code response) && (status_code response <? 500));
      do 2 eexists; (split; [reflexivity|]); now repeat split.
  - unfold bind at 1.
    pose proof (getTokenFromResponse_world response w) as Hw.
    destruct (_getTokenFromResponse response w) as [[item|e] w1];
      simpl in Hw; subst w1;
      do 2 eexists; (split; [reflexivity|]); now repeat split.
Qed.

Lemma posted_by_insert (cs : callers) (i : nat) (sr : ServiceRecord)
  (ph ph' : phase) :
  cs !! i = Some (sr, ph) ->
  (posted_by (<[i := (sr, ph')]> cs) + posted ph = posted_by cs + posted ph')%nat.
Proof.
  unfold callers in *.
  revert i. induction cs as [|[sr0 ph0] cs IH]; intros [|i]; simpl;
    try discriminate.
  - intros [= -> ->]. lia.
  - intros Hi. specialize (IH i Hi). lia.
Qed.

Lemma holders_insert (cs : callers) (i : nat) (sr : ServiceRecord) (ph ph' : phase) :
  cs !! i = Some (sr, ph) ->
  Forall (fun c => fst c = sr) cs ->
  Forall (fun c => fst c = sr) (<[i := (sr, ph')]> cs).
Proof.
  intros _ Hall. apply Forall_insert; [exact Hall | reflexivity].
Qed.

(** A step keeps what [refreshing] says. *)
Lemma step_refreshing (sr : ServiceRecord) (before : nat)
  (s s' : callers * World) :
  refreshing sr before s -> step_ s s' -> refreshing sr before s'.
Proof.
  intros (Hall & Hstale & Hcausal & Hcount) Hstep.
  destruct Hstep as [i cs sr' ph ph' w w' Hi Hadv]. simpl in *.
  assert (sr' = sr) as ->.
  { apply (Forall_lookup_1 _ _ _ _ Hall) in Hi. exact Hi. }
  pose proof (posted_by_insert cs i sr ph ph' Hi) as Hposted.
  pose proof (holders_insert cs i sr ph ph' Hi Hall) as Hall'.
  unfold refreshing. simpl.
  destruct ph as [| |response|result].
  - rewrite (advance_Calling_stale sr w Hstale) in Hadv.
    injection Hadv as <- <-. simpl in Hposted.
    repeat split; [exact Hall' | exact Hstale | exact Hcausal | lia].
  - destruct (advance_Exchanging sr w Hcausal)
      as (ph1 & w1 & Hadv1 & Hph1 & Hex & Hnow & Hcausal1).
    rewrite Hadv1 in Hadv. injection Hadv as <- <-. simpl in Hposted.
    repeat split; [exact Hall' | | exact Hcausal1 | lia].
    destruct Hstale as [Hfalse|Hlt]; [now left | right; lia].
  - destruct (advance_Storing sr response w)
      as (result & w1 & Hadv1 & Hsent & Hnow & Hreplies).
    rewrite Hadv1 in Hadv. injection Hadv as <- <-. simpl in Hposted.
    repeat split; [exact Hall' | | | ].
    + destruct Hstale as [Hfalse|Hlt]; [now left | right; lia].
    + unfold causal in *. now rewrite Hreplies.
    + rewrite (exchanges_sent _ _ Hsent). lia.
  - discriminate Hadv.
Qed.

Lemma steps_refreshing (sr : ServiceRecord) (before : nat)
  (s s' : callers * World) :
  rtc step_ s s' -> refreshing sr before s -> refreshing sr before s'.
Proof.
  induction 1 as [s|s s1 s2 Hstep _ IH]; intros Hinv; [exact Hinv|].
  apply IH. exact (step_refreshing sr before s s1 Hinv Hstep).
Qed.

Lemma step_length (s s' : callers * World) :
  step_ s s' -> length (fst s') = length (fst s).
Proof. intros [i cs sr ph ph' w w' _ _]. simpl. apply length_insert. Qed.

Lemma steps_length (s s' : callers * World) :
  rtc step_ s s' -> length (fst s') = length (fst s).
Proof.
  induction 1 as [s|s s1 s2 Hstep _ IH]; [reflexivity|].
  rewrite IH. now apply step_length.
Qed.

Lemma posted_by_Finished (cs : callers) :
  Forall (fun c => is_Finished c = true) cs -> posted_by cs = length cs.
Proof.
  induction 1 as [|[sr ph] cs Hfin _ IH]; [reflexivity|].
  simpl. rewrite IH. unfold is_Finished in Hfin. simpl in Hfin.
  destruct ph; now try discriminate.
Qed.

Lemma posted_by_Calling (n : nat) (sr : ServiceRecord) :
  posted_by (replicate n (sr, Calling)) = 0%nat.
Proof. induction n as [|n IH]; [reflexivity | exact IH]. Qed.

(** C10, as the code has it.  Nothing makes the refresh single-flight:
    when [n] callers run [_getAuthHeaders] for an account whose record
    has no true access token or has expired, then however their steps
    are interleaved, once all of them have finished the refresh grant
    has been posted [n] times, once by each caller. *)
Theorem every_caller_refreshes (n : nat) (sr : ServiceRecord) (w : World)
  (cs' : callers) (w' : World) :
  stale_record sr w ->
  causal w ->
  rtc step_ (replicate n (sr, Calling), w) (cs', w') ->
  Forall (fun c => is_Finished c = true) cs' ->
  exchanges w' = (exchanges w + n)%nat.
Proof.
  intros Hstale Hcausal Hrun Hfinished.
  assert (Hinit : refreshing sr (exchanges w) (replicate n (sr, Calling), w)).
  { repeat split; simpl; try assumption.
    - apply Forall_replicate. reflexivity.
    - rewrite posted_by_Calling. lia. }
  destruct (steps_refreshing sr _ _ _ Hrun Hinit) as (_ & _ & _ & Hcount).
  simpl in Hcount. rewrite Hcount, (posted_by_Finished _ Hfinished).
  apply steps_length in Hrun. simpl in Hrun.
  rewrite Hrun, length_replicate. reflexivity.
Qed.

End Callers.

(** C10, as stated, fails.  Two callers for an account whose cached
    token has expired each read the stale token before either posts:
    the refresh grant is posted twice, and neither caller is handed
    headers. *)
Lemma two_callers_two_exchanges :
  exists cs' w',
    schedule Sample.client_id Sample.client_secret Sample.repr
      Sample.interleaved Sample.two_callers
      (Sample.lapsed [(0, Sample.granted); (0, Sample.granted)])
    = Some (cs', w')
    /\ rtc (step Sample.client_id Sample.client_secret Sample.repr)
         (Sample.two_callers,
          Sample.lapsed [(0, Sample.granted); (0, Sample.granted)])
         (cs', w')
    /\ map snd cs'
       = [Finished (Raised (AttributeError "AccessToken"));
          Finished (Raised (AttributeError "AccessToken"))]
    /\ exchanges w' = 2%nat.
Proof.
  destruct (schedule Sample.client_id Sample.client_secret Sample.repr
              Sample.interleaved Sample.two_callers
              (Sample.lapsed [(0, Sample.granted); (0, Sample.granted)]))
    as [[cs' w']|] eqn:E.
  - exists cs', w'. split; [reflexivity|].
    split; [exact (schedule_sound _ _ _ _ _ _ _ E)|].
    vm_compute in E. injection E as <- <-.
    split; vm_compute; reflexivity.
  - vm_compute in E. discriminate E.
Qed.

(** The same two callers: two grants, as for any other order. *)
Lemma every_caller_refreshes_witness :
  match
    schedule Sample.client_id Sample.client_secret Sample.repr
      Sample.interleaved Sample.two_callers
      (Sample.lapsed [(0, Sample.granted); (0, Sample.granted)])
  with
  | Some (_, w') =>
      exchanges w'
      = Nat.add
          (exchanges (Sample.lapsed [(0, Sample.granted); (0, Sample.granted)]))
          2%nat
  | None => True
  end.
Proof.
  destruct (schedule Sample.client_id Sample.client_secret Sample.repr
              Sample.interleaved Sample.two_callers
              (Sample.lapsed [(0, Sample.granted); (0, Sample.granted)]))
    as [[cs' w']|] eqn:E; [|exact I].
  apply (every_caller_refreshes Sample.client_id Sample.client_secret
           Sample.repr 2 Sample.lapsed_account
           (Sample.lapsed [(0, Sample.granted); (0, Sample.granted)]) cs' w').
  - right. vm_compute. reflexivity.
  - repeat constructor; simpl; lia.
  - exact (schedule_sound _ _ _ _ _ _ _ E).
  - vm_compute in E. injection E as <- <-. repeat constructor.
Defined.

(** * Further properties *)

(** ** The token lifecycle, continued *)

Section TokensMore.

Variable POWERTRAXX_CLIENT_ID : string.
Variable POWERTRAXX_CLIENT_SECRET : string.
Variable repr : pyval -> string.

Local Abbreviation getAuthHeaders :=
  (_getAuthHeaders POWERTRAXX_CLIENT_ID POWERTRAXX_CLIENT_SECRET repr).
Local Abbreviation token_request_ :=
  (token_request POWERTRAXX_CLIENT_ID POWERTRAXX_CLIENT_SECRET).

(** The test of the first lines always has an answer. *)
Lemma refresh_due_total (sr : ServiceRecord) (w : World) :
  exists stale, refresh_due sr w = (Ok stale, w).
Proof.
  unfold refresh_due, bind.
  destruct (SessionCache_Get_pure (ExternalID sr) w) as [authInfo ->].
  unfold needs_refresh. destruct authInfo as [item|]; simpl.
  - destruct (truthy (AccessToken (Authorization sr))); simpl; now eexists.
  - now eexists.
Qed.

(** Handling the answer of the token endpoint never yields headers, and
    sends nothing. *)
Lemma refreshed_raises (sr : ServiceRecord) (response : Response) (w : World) :
  exists e w',
    refreshed sr response w = (Raised e, w') /\ sent w' = sent w
    /\ replies w' = replies w.
Proof.
  unfold refreshed.
  destruct (negb (status_code response =? 200)).
  - destruct ((400 <=? status_code response) && (status_code response <? 500));
      do 2 eexists; (split; [reflexivity|]); now split.
  - unfold bind at 1.
    pose proof (getTokenFromResponse_world response w) as Hw.
    destruct (_getTokenFromResponse response w) as [[item|e] w1];
      simpl in Hw; subst w1;
      do 2 eexists; (split; [reflexivity|]); now split.
Qed.

(** A refresh, whatever the answer, ends in an exception, with the
    grant posted. *)
Lemma getAuthHeaders_refresh_raises (sr : ServiceRecord) (w : World) :
  fst (refresh_due sr w) = Ok true ->
  exists e w',
    getAuthHeaders sr w = (Raised e, w')
    /\ sent w' = (sent w ++ [token_request_ sr])%list.
Proof.
  intros Hdue. rewrite (getAuthHeaders_refreshing _ _ _ _ _ Hdue).
  unfold bind, requests.
  destruct (replies w) as [|[dt response] rest].
  - do 2 eexists. split; reflexivity.
  - match goal with
    | |- context [refreshed sr response ?w0] =>
        destruct (refreshed_raises sr response w0) as (e & w' & -> & Hsent & _)
    end.
    do 2 eexists. split; [reflexivity | exact Hsent].
Qed.

(** X1.  A refresh that the provider grants still fails.  The call
    posts the refresh grant, with the refresh token of the service
    record and the credentials of the client; it writes the token of
    the answer, which expires [expires_in] less 30 seconds after the
    arrival of the answer, to the cache under the id of the account,
    together with the time of arrival, and to the stored service
    record; it leaves the entries of other accounts alone; and then it
    raises AttributeError instead of returning headers. *)
Theorem granted_refresh_raises (sr : ServiceRecord) (w : World) (dt : timedelta)
  (response : Response) (rest : list (timedelta * Response))
  (j e tok rt : pyval) (q : Q) :
  fst (refresh_due sr w) = Ok true ->
  replies w = (dt, response) :: rest ->
  status_code response = 200 ->
  json response = Some j ->
  getitem j "expires_in" = Ok e ->
  as_number e = Some q ->
  getitem j "access_token" = Ok tok ->
  getitem j "refresh_token" = Ok rt ->
  let arrival := now w + dt in
  let item :=
    {| AccessToken := tok; RefreshToken := rt;
       ExpirationDate := arrival + timedelta_seconds (q - 30) |} in
  let grant :=
    {| method := POST;
       url := "http://localhost:52060/token";
       headers := [("Content-Type", "application/x-www-form-urlencoded")];
       data :=
         VDict [("grant_type", VStr "refresh_token");
                ("refresh_token", RefreshToken (Authorization sr));
                ("client_id", VStr POWERTRAXX_CLIENT_ID);
                ("client_secret", VStr POWERTRAXX_CLIENT_SECRET)] |} in
  let w' := snd (getAuthHeaders sr w) in
  fst (getAuthHeaders sr w) = Raised (AttributeError "AccessToken")
  /\ w' = {| now := arrival;
             tokenCache := <[ExternalID sr := (item, arrival)]> (tokenCache w);
             serviceRecords := <[ExternalID sr := item]> (serviceRecords w);
             sent := (sent w ++ [grant])%list;
             replies := rest |}
  /\ tokenCache w' !! ExternalID sr = Some (item, arrival)
  /\ serviceRecords w' !! ExternalID sr = Some item
  /\ (forall other,
         other <> ExternalID sr ->
         tokenCache w' !! other = tokenCache w !! other
         /\ serviceRecords w' !! other = serviceRecords w !! other).
Proof.
  intros Hdue Hreply Hstatus Hj He Hq Htok Hrt. cbv zeta.
  rewrite (getAuthHeaders_refreshing _ _ _ _ _ Hdue).
  unfold bind, requests. rewrite Hreply.
  rewrite (refreshed_granted sr _ _ _ _ _ _ _ Hstatus Hj He Hq Htok Hrt).
  cbn [fst snd now sent replies tokenCache serviceRecords].
  split; [reflexivity|]. split; [reflexivity|].
  split; [apply lookup_insert_eq|]. split; [apply lookup_insert_eq|].
  intros other Hother. split; apply lookup_insert_ne; congruence.
Qed.

(** X2.  Headers are returned only on the path without an exchange:
    whenever [_getAuthHeaders] returns, nothing was sent or stored, no
    refresh was due, and the header carries the access token of the
    service record. *)
Theorem headers_only_without_exchange (sr : ServiceRecord) (w w' : World)
  (hdrs : list (string * string)) :
  getAuthHeaders sr w = (Ok hdrs, w') ->
  w' = w
  /\ fst (refresh_due sr w) = Ok false
  /\ hdrs = [("Authorization",
              "Bearer " ++ str repr (AccessToken (Authorization sr)))].
Proof.
  intros Hok.
  destruct (refresh_due_total sr w) as [[|] Hdue].
  - destruct (getAuthHeaders_refresh_raises sr w) as (e & w1 & Hraise & _).
    { now rewrite Hdue. }
    rewrite Hraise in Hok. discriminate Hok.
  - rewrite (getAuthHeaders_kept _ _ _ sr w) in Hok by now rewrite Hdue.
    injection Hok as <- <-. now rewrite Hdue.
Qed.

(** X3.  After [DeleteCachedData] the next call always posts the refresh
    grant, also for a service record whose token has not expired. *)
Theorem deleted_cache_forces_refresh (sr : ServiceRecord) (w : World) :
  sent (snd (bind (DeleteCachedData sr) (fun _ => getAuthHeaders sr) w))
  = (sent w ++ [token_request_ sr])%list
  /\ exists e,
       fst (bind (DeleteCachedData sr) (fun _ => getAuthHeaders sr) w)
       = Raised e.
Proof.
  unfold bind, DeleteCachedData, SessionCache_Delete. cbv beta iota.
  match goal with
  | |- context [getAuthHeaders sr ?w0] =>
      destruct (getAuthHeaders_refresh_raises sr w0) as (e & w' & Hraise & Hsent)
  end.
  { rewrite refresh_due_uncached; [reflexivity|].
    unfold SessionCache_Get. simpl. now rewrite lookup_delete_eq. }
  rewrite Hraise. simpl. split; [exact Hsent | now exists e].
Qed.

End TokensMore.

(** X4.  How [_getTokenFromResponse] fails: on a body that is not JSON
    with ValueError, on a missing key with the KeyError of that key,
    [expires_in] first, and on an [expires_in] that is not a number with
    TypeError; in each case the clock is not read and nothing changes. *)
Theorem getTokenFromResponse_failures (response : Response) (w : World) :
  (json response = None ->
   _getTokenFromResponse response w = (Raised ValueError, w))
  /\ (forall kv,
         json response = Some (VDict kv) ->
         assoc String.eqb "expires_in" kv = None ->
         _getTokenFromResponse response w = (Raised (KeyError "expires_in"), w))
  /\ (forall kv e,
         json response = Some (VDict kv) ->
         assoc String.eqb "expires_in" kv = Some e ->
         as_number e = None ->
         _getTokenFromResponse response w = (Raised TypeError, w))
  /\ (forall kv e q,
         json response = Some (VDict kv) ->
         assoc String.eqb "expires_in" kv = Some e ->
         as_number e = Some q ->
         assoc String.eqb "access_token" kv = None ->
         _getTokenFromResponse response w
         = (Raised (KeyError "access_token"), w))
  /\ (forall kv e q tok,
         json response = Some (VDict kv) ->
         assoc String.eqb "expires_in" kv = Some e ->
         as_number e = Some q ->
         assoc String.eqb "access_token" kv = Some tok ->
         assoc String.eqb "refresh_token" kv = None ->
         _getTokenFromResponse response w
         = (Raised (KeyError "refresh_token"), w)).
Proof.
  unfold _getTokenFromResponse, bind, lift, json_of, getitem, py_sub.
  repeat split.
  - now intros ->.
  - intros kv -> He. now rewrite He.
  - intros kv e -> He Hq. now rewrite He, Hq.
  - intros kv e q -> He Hq Htok. now rewrite He, Hq, Htok.
  - intros kv e q tok -> He Hq Htok Hrt. now rewrite He, Hq, Htok, Hrt.
Qed.

(** The sample refresh, granted ten seconds after [t0] for 60 seconds:
    the call raises, and the cache holds the new token B, which
    expires 30 seconds after its arrival. *)
Lemma granted_refresh_raises_witness :
  fst (_getAuthHeaders Sample.client_id Sample.client_secret Sample.repr
         Sample.lapsed_account (Sample.lapsed [(0, Sample.granted)]))
  = Raised (AttributeError "AccessToken")
  /\ tokenCache
       (snd (_getAuthHeaders Sample.client_id Sample.client_secret Sample.repr
               Sample.lapsed_account (Sample.lapsed [(0, Sample.granted)])))
       !! "u"
     = Some ({| AccessToken := VStr "B"; RefreshToken := VStr "S";
                ExpirationDate := Sample.t0 + 40 * 1000000 |},
             Sample.t0 + 10 * 1000000)
  /\ tokenCache (Sample.lapsed [(0, Sample.granted)]) !! "u"
     = Some (Authorization Sample.lapsed_account, Sample.t0).
Proof.
  destruct (granted_refresh_raises Sample.client_id Sample.client_secret
              Sample.repr Sample.lapsed_account
              (Sample.lapsed [(0, Sample.granted)]) 0 Sample.granted []
              (VDict [("access_token", VStr "B"); ("refresh_token", VStr "S");
                      ("expires_in", VNum 60)])
              (VNum 60) (VStr "B") (VStr "S") 60%Q
              eq_refl eq_refl eq_refl eq_refl eq_refl eq_refl eq_refl eq_refl)
    as (Hraised & _ & Hcache & _).
  split; [exact Hraised|].
  split; [exact Hcache | reflexivity].
Defined.

(** The sample call with a cached token. *)
Lemma headers_only_without_exchange_witness :
  Sample.fresh [] = Sample.fresh []
  /\ fst (refresh_due Sample.account (Sample.fresh [])) = Ok false
  /\ [("Authorization", "Bearer A")]
     = [("Authorization",
         "Bearer " ++ str Sample.repr (AccessToken (Authorization Sample.account)))].
Proof.
  apply (headers_only_without_exchange Sample.client_id Sample.client_secret
           Sample.repr Sample.account (Sample.fresh []) (Sample.fresh [])
           [("Authorization", "Bearer A")]).
  vm_compute. reflexivity.
Defined.

(** A token answer that is not JSON. *)
Lemma getTokenFromResponse_failures_witness :
  _getTokenFromResponse (Sample.answer 200 None) (Sample.fresh [])
  = (Raised ValueError, Sample.fresh []).
Proof.
  apply (getTokenFromResponse_failures (Sample.answer 200 None) (Sample.fresh [])).
  reflexivity.
Defined.

(** ** The authorization code *)

Section Authorize.

Variable POWERTRAXX_CLIENT_ID : string.
Variable POWERTRAXX_CLIENT_SECRET : string.
Variable redirect_uri : string.
Variable repr : pyval -> string.

Local Abbreviation retrieve :=
  (RetrieveAuthorizationToken POWERTRAXX_CLIENT_ID POWERTRAXX_CLIENT_SECRET
     redirect_uri repr).

(** The grant [RetrieveAuthorizationToken] posts for a code. *)
Local Abbreviation code_request code :=
  {| method := POST; url := BaseUrl ++ "/token";
     headers := [("Content-Type", "application/x-www-form-urlencoded")];
     data :=
       VDict [("grant_type", VStr "authorization_code");
              ("code", code);
              ("client_id", VStr POWERTRAXX_CLIENT_ID);
              ("client_secret", VStr POWERTRAXX_CLIENT_SECRET);
              ("redirect_uri", VStr redirect_uri)] |}.

(** X5.  A code that the token endpoint does not answer with 200 is
    refused with the generic error "Invalid code", which does not block;
    the user is not asked for, and the cache is not touched. *)
Theorem authorization_code_rejected (code : pyval) (w : World) (dt : timedelta)
  (response : Response) (rest : list (timedelta * Response)) :
  replies w = (dt, response) :: rest ->
  status_code response <> 200 ->
  fst (retrieve code w)
  = Raised (APIError {| message := "Invalid code"; block := false;
                        user_exception := None |})
  /\ sent (snd (retrieve code w)) = (sent w ++ [code_request code])%list
  /\ replies (snd (retrieve code w)) = rest
  /\ tokenCache (snd (retrieve code w)) = tokenCache w.
Proof.
  intros Hreply Hstatus.
  unfold RetrieveAuthorizationToken, bind, requests. rewrite Hreply.
  destruct (Z.eqb_spec (status_code response) 200) as [|_]; [contradiction|].
  simpl. now repeat split.
Qed.

(** X6.  A code that is granted yields the user id of the second answer
    and a token that expires [expires_in] minus 30 seconds after the
    first answer arrived; the user is asked for with the new access
    token as bearer, the status of that answer is not looked at, and
    neither the cache nor the stored service records are written. *)
Theorem authorization_code_granted (code : pyval) (w : World)
  (dt1 dt2 : timedelta) (response userInfo : Response)
  (rest : list (timedelta * Response)) (j e tok rt ju uid : pyval) (q : Q) :
  replies w = (dt1, response) :: (dt2, userInfo) :: rest ->
  status_code response = 200 ->
  json response = Some j ->
  getitem j "expires_in" = Ok e ->
  as_number e = Some q ->
  getitem j "access_token" = Ok tok ->
  getitem j "refresh_token" = Ok rt ->
  json userInfo = Some ju ->
  getitem ju "Id" = Ok uid ->
  fst (retrieve code w)
  = Ok (uid,
        {| AccessToken := tok; RefreshToken := rt;
           ExpirationDate := now w + dt1 + timedelta_seconds (q - 30) |})
  /\ sent (snd (retrieve code w))
     = app (sent w)
         [code_request code;
          {| method := POST; url := BaseUrl ++ "/api/account/userinfo";
             headers := [("Authorization", "Bearer " ++ str repr tok)];
             data := VNone |}]
  /\ replies (snd (retrieve code w)) = rest
  /\ tokenCache (snd (retrieve code w)) = tokenCache w
  /\ serviceRecords (snd (retrieve code w)) = serviceRecords w.
Proof.
  intros Hreply Hstatus Hj He Hq Htok Hrt Hju Huid.
  assert (Hrun :
    retrieve code w
    = (Ok (uid,
           {| AccessToken := tok; RefreshToken := rt;
              ExpirationDate := now w + dt1 + timedelta_seconds (q - 30) |}),
       {| now := now w + dt1 + dt2;
          tokenCache := tokenCache w;
          serviceRecords := serviceRecords w;
          sent :=
            app (app (sent w) [code_request code])
              [{| method := POST; url := BaseUrl ++ "/api/account/userinfo";
                  headers := [("Authorization", "Bearer " ++ str repr tok)];
                  data := VNone |}];
          replies := rest |})).
  { unfold RetrieveAuthorizationToken.
    unfold bind at 1. unfold requests at 1. rewrite Hreply, Hstatus.
    change (negb (200 =? 200)) with false. cbv iota.
    unfold bind at 1.
    rewrite (getTokenFromResponse_ok _ _ _ _ _ _ _ Hj He Hq Htok Hrt).
    unfold bind, requests, lift, json_of, ret.
    cbn [replies sent now tokenCache serviceRecords AccessToken].
    now rewrite Hju, Huid. }
  rewrite Hrun. cbn [fst snd replies sent tokenCache serviceRecords].
  repeat split. now rewrite <- app_assoc.
Qed.

End Authorize.

(** A code refused with 401. *)
Lemma authorization_code_rejected_witness :
  fst (RetrieveAuthorizationToken Sample.client_id Sample.client_secret
         Sample.redirect_uri Sample.repr (VStr "c0de")
         (Sample.world Sample.t0 ∅ [(0, Sample.answer 401 None)]))
  = Raised (APIError {| message := "Invalid code"; block := false;
                        user_exception := None |}).
Proof.
  apply (authorization_code_rejected Sample.client_id Sample.client_secret
           Sample.redirect_uri Sample.repr (VStr "c0de")
           (Sample.world Sample.t0 ∅ [(0, Sample.answer 401 None)])
           0 (Sample.answer 401 None) []).
  - reflexivity.
  - simpl. lia.
Defined.

(** A code granted for 60 seconds. *)
Lemma authorization_code_granted_witness :
  fst (RetrieveAuthorizationToken Sample.client_id Sample.client_secret
         Sample.redirect_uri Sample.repr (VStr "c0de")
         (Sample.world Sample.t0 ∅
            [(0, Sample.granted); (0, Sample.userinfo)]))
  = Ok (VStr "u",
        {| AccessToken := VStr "B"; RefreshToken := VStr "S";
           ExpirationDate := Sample.t0 + 0 + timedelta_seconds (60 - 30) |}).
Proof.
  apply (authorization_code_granted Sample.client_id Sample.client_secret
           Sample.redirect_uri Sample.repr (VStr "c0de")
           (Sample.world Sample.t0 ∅
              [(0, Sample.granted); (0, Sample.userinfo)])
           0 0 Sample.granted Sample.userinfo []
           (VDict [("access_token", VStr "B"); ("refresh_token", VStr "S");
                   ("expires_in", VNum 60)])
           (VNum 60) (VStr "B") (VStr "S")
           (VDict [("Id", VStr "u")]) (VStr "u") 60%Q);
    reflexivity.
Defined.

(** ** The list of activities *)

Section Listing.

Variable POWERTRAXX_CLIENT_ID : string.
Variable POWERTRAXX_CLIENT_SECRET : string.
Variable repr : pyval -> string.
Variable parse : string -> option datetime.

Local Abbreviation getAuthHeaders :=
  (_getAuthHeaders POWERTRAXX_CLIENT_ID POWERTRAXX_CLIENT_SECRET repr).
Local Abbreviation getActivities :=
  (_getActivities POWERTRAXX_CLIENT_ID POWERTRAXX_CLIENT_SECRET repr).
Local Abbreviation downloadActivityList :=
  (DownloadActivityList POWERTRAXX_CLIENT_ID POWERTRAXX_CLIENT_SECRET repr parse).

(** [_getActivities] with headers at hand: one request, and the decoded
    body whatever the status. *)
Lemma getActivities_run (sr : ServiceRecord) (exhaustive : bool) (w w1 : World)
  (hdrs : list (string * string)) (dt : timedelta) (response : Response)
  (rest : list (timedelta * Response)) :
  getAuthHeaders sr w = (Ok hdrs, w1) ->
  replies w1 = (dt, response) :: rest ->
  getActivities sr exhaustive w
  = (match json response with
     | Some v => Ok v
     | None =>
         Raised (APIError
                   (APIException_
                      ("Could not decode activity list response "
                         ++ pretty (status_code response) ++ " "
                         ++ text response)))
     end,
     {| now := now w1 + dt; tokenCache := tokenCache w1;
        serviceRecords := serviceRecords w1;
        sent := app (sent w1) [list_request hdrs exhaustive];
        replies := rest |}).
Proof.
  intros Hauth Hreply.
  unfold _getActivities, bind at 1. rewrite Hauth.
  unfold bind, requests, list_request.
  destruct exhaustive; rewrite Hreply; now destruct (json response).
Qed.

Lemma activity_of_item_listable (item : pyval) :
  listable parse item ->
  exists activity,
    activity_of_item parse item = Ok activity /\ listed parse item activity.
Proof.
  intros ((id & Hid) & (sportType & ty & Hsport & Hty) & (distance & Hdist)
          & (s1 & t1 & Hstart & Hparse1) & (s2 & t2 & Hend & Hparse2)
          & (name & Hname)).
  unfold activity_of_item, obind, parse_date.
  rewrite Hid, Hsport, Hty, Hdist, Hstart, Hparse1, Hend, Hparse2, Hname.
  simpl. eexists. split; [reflexivity|].
  unfold listed. simpl. repeat split; eauto.
Qed.

Lemma activities_of_items_listable (items : list pyval) :
  Forall (listable parse) items ->
  exists activities,
    activities_of_items parse items = Ok activities
    /\ Forall2 (listed parse) items activities.
Proof.
  induction 1 as [|item items Hitem _ (activities & Hrest & Hall)].
  - exists []. split; [reflexivity | constructor].
  - destruct (activity_of_item_listable item Hitem) as (activity & Hact & Hlisted).
    exists (activity :: activities). simpl. unfold obind.
    rewrite Hact, Hrest. split; [reflexivity | now constructor].
Qed.

(** The outcome of [DownloadActivityList] read off the body. *)
Lemma downloadActivityList_outcome (sr : ServiceRecord) (exhaustive : bool)
  (w w1 : World) (hdrs : list (string * string)) (dt : timedelta)
  (response : Response) (rest : list (timedelta * Response)) :
  getAuthHeaders sr w = (Ok hdrs, w1) ->
  replies w1 = (dt, response) :: rest ->
  fst (downloadActivityList sr exhaustive w)
  = match json response with
    | Some v =>
        obind (py_iter v)
          (fun items =>
             obind (activities_of_items parse items)
               (fun activities => Ok (activities, [])))
    | None =>
        Raised (APIError
                  (APIException_
                     ("Could not decode activity list response "
                        ++ pretty (status_code response) ++ " "
                        ++ text response)))
    end.
Proof.
  intros Hauth Hreply.
  unfold DownloadActivityList, bind at 1.
  rewrite (getActivities_run sr exhaustive w w1 hdrs dt response rest
             Hauth Hreply).
  destruct (json response) as [v|]; [|reflexivity].
  unfold bind, lift, ret, obind.
  destruct (py_iter v) as [items|]; [|reflexivity].
  now destruct (activities_of_items parse items).
Qed.

(** X7.  With headers at hand and an answer whose body is a JSON array
    of listable items, [DownloadActivityList] returns one activity per
    item, in order, each with the id, type, distance in meters, dates
    and name of its item and no laps, and no exclusions.  It sends one
    GET, for the 25 newest activities unless the listing is exhaustive,
    and does not look at the status of the answer. *)
Theorem listing_decodes_items (sr : ServiceRecord) (exhaustive : bool)
  (w w1 : World) (hdrs : list (string * string)) (dt : timedelta)
  (response : Response) (rest : list (timedelta * Response))
  (items : list pyval) :
  getAuthHeaders sr w = (Ok hdrs, w1) ->
  replies w1 = (dt, response) :: rest ->
  json response = Some (VList items) ->
  Forall (listable parse) items ->
  exists activities,
    fst (downloadActivityList sr exhaustive w) = Ok (activities, [])
    /\ Forall2 (listed parse) items activities
    /\ sent (snd (downloadActivityList sr exhaustive w))
       = app (sent w1) [list_request hdrs exhaustive].
Proof.
  intros Hauth Hreply Hjson Hitems.
  destruct (activities_of_items_listable items Hitems) as (activities & Hacts & Hall).
  exists activities.
  assert (Hrun :
    downloadActivityList sr exhaustive w
    = (Ok (activities, []),
       {| now := now w1 + dt; tokenCache := tokenCache w1;
          serviceRecords := serviceRecords w1;
          sent := app (sent w1) [list_request hdrs exhaustive];
          replies := rest |})).
  { unfold DownloadActivityList, bind at 1.
    rewrite (getActivities_run sr exhaustive w w1 hdrs dt response rest
               Hauth Hreply).
    rewrite Hjson. unfold bind, lift, ret. simpl py_iter. cbv iota beta.
    now rewrite Hacts. }
  rewrite Hrun. now repeat split.
Qed.

(** X8.  What [DownloadActivityList] makes of other bodies, with headers
    at hand and whatever the status: a body that is not JSON fails with
    the generic error that quotes status and body and does not block;
    an empty array, an empty object and an empty string give the empty
    list; an object with a key fails with TypeError, as do null, a
    number and a boolean. *)
Theorem listing_of_other_bodies (sr : ServiceRecord) (exhaustive : bool)
  (w w1 : World) (hdrs : list (string * string)) (dt : timedelta)
  (response : Response) (rest : list (timedelta * Response)) :
  getAuthHeaders sr w = (Ok hdrs, w1) ->
  replies w1 = (dt, response) :: rest ->
  (json response = None ->
   fst (downloadActivityList sr exhaustive w)
   = Raised (APIError
               {| message :=
                    "Could not decode activity list response "
                      ++ pretty (status_code response) ++ " " ++ text response;
                  block := false; user_exception := None |}))
  /\ (json response = Some (VList []) \/ json response = Some (VDict [])
      \/ json response = Some (VStr "") ->
      fst (downloadActivityList sr exhaustive w) = Ok ([], []))
  /\ (forall key value kv,
         json response = Some (VDict ((key, value) :: kv)) ->
         fst (downloadActivityList sr exhaustive w) = Raised TypeError)
  /\ (forall v,
         json response = Some v ->
         match v with VNone | VBool _ | VNum _ => True | _ => False end ->
         fst (downloadActivityList sr exhaustive w) = Raised TypeError).
Proof.
  intros Hauth Hreply.
  rewrite (downloadActivityList_outcome sr exhaustive w w1 hdrs dt response
             rest Hauth Hreply).
  repeat split.
  - now intros ->.
  - intros [-> | [-> | ->]]; reflexivity.
  - intros key value kv ->. reflexivity.
  - intros v -> Hv. destruct v; try contradiction; reflexivity.
Qed.

End Listing.

Ltac sample_listable :=
  unfold listable; repeat split; repeat eexists; reflexivity.

(** The sample list of one item. *)
Lemma listing_decodes_items_witness :
  exists activities,
    fst (DownloadActivityList Sample.client_id Sample.client_secret Sample.repr
           Sample.parse Sample.account false
           (Sample.fresh [(0, Sample.listing)]))
    = Ok (activities, [])
    /\ Forall2 (listed Sample.parse) [Sample.item] activities
    /\ sent (snd (DownloadActivityList Sample.client_id Sample.client_secret
                    Sample.repr Sample.parse Sample.account false
                    (Sample.fresh [(0, Sample.listing)])))
       = app (sent (Sample.fresh [(0, Sample.listing)]))
           [list_request [("Authorization", "Bearer A")] false].
Proof.
  apply (listing_decodes_items Sample.client_id Sample.client_secret
           Sample.repr Sample.parse Sample.account false
           (Sample.fresh [(0, Sample.listing)])
           (Sample.fresh [(0, Sample.listing)])
           [("Authorization", "Bearer A")] 0 Sample.listing [] [Sample.item]);
    try reflexivity.
  repeat constructor; repeat eexists; reflexivity.
Defined.

(** A list answered with a page that is not JSON. *)
Lemma listing_of_other_bodies_witness :
  fst (DownloadActivityList Sample.client_id Sample.client_secret Sample.repr
         Sample.parse Sample.account false
         (Sample.fresh [(0, Sample.answer 502 None)]))
  = Raised (APIError
              {| message :=
                   "Could not decode activity list response "
                     ++ pretty (status_code (Sample.answer 502 None)) ++ " "
                     ++ text (Sample.answer 502 None);
                 block := false; user_exception := None |}).
Proof.
  apply (listing_of_other_bodies Sample.client_id Sample.client_secret
           Sample.repr Sample.parse Sample.account false
           (Sample.fresh [(0, Sample.answer 502 None)])
           (Sample.fresh [(0, Sample.answer 502 None)])
           [("Authorization", "Bearer A")] 0 (Sample.answer 502 None) []);
    reflexivity.
Defined.

(** ** Download, continued *)

Section Decoding.

Variable parse : string -> option datetime.

(** What a waypoint that was made has taken from its point. *)
Lemma waypoint_of_point_inv (last : option Waypoint) (wp : pyval) (w : Waypoint) :
  waypoint_of_point parse last wp = Ok w -> waypoint_from parse last wp w.
Proof.
  unfold waypoint_of_point, obind, parse_date, py_div, waypoint_from.
  destruct (getitem wp "TimeStamp") as [[| | |s| |]|]; try discriminate.
  destruct (parse s) as [t|] eqn:Hparse; [|discriminate].
  destruct (getitem wp "Distance") as [distance|]; [|discriminate].
  destruct (getitem wp "Pause") as [pause|]; [|discriminate].
  destruct (getitem wp "Lat") as [lat|]; [|discriminate].
  destruct (getitem wp "Lon") as [lon|]; [|discriminate].
  destruct (getitem wp "Elevation") as [elevation|]; [|discriminate].
  destruct (getitem wp "Power") as [power|]; [|discriminate].
  destruct (getitem wp "Cadence") as [cadence|]; [|discriminate].
  destruct (getitem wp "Steps") as [steps|]; [|discriminate].
  destruct (getitem wp "Speed") as [speed|]; [|discriminate].
  destruct (as_number speed) as [q|] eqn:Hq; [|discriminate].
  destruct (getitem wp "Heartrate") as [heartrate|]; [|discriminate].
  intros [= <-]. simpl. repeat split; eauto 10.
Qed.

(** X9.  The loop over the points turns a stream of decodable points
    into as many waypoints, in order; each waypoint has the parsed time
    stamp of its point, its speed divided by 3.6, its other fields as
    they are, and the tag that its pause marker and the waypoint made
    just before it give. *)
Theorem points_become_waypoints (last : option Waypoint) (points : list pyval) :
  Forall (decodable parse) points ->
  exists ws,
    waypoints_of_points parse last points = Ok ws
    /\ length ws = length points
    /\ forall i p w,
         points !! i = Some p -> ws !! i = Some w ->
         waypoint_from parse (before last ws i) p w.
Proof.
  intros Hall. revert last.
  induction Hall as [|p points Hp _ IH]; intros last.
  - exists []. split; [reflexivity|]. split; [reflexivity|].
    intros i p w Hi. destruct i; discriminate Hi.
  - destruct Hp as ((s & t & Hts & Hparse) & (v & q & Hspeed & Hq) & Hkeys).
    assert (Hmade : exists w, waypoint_of_point parse last p = Ok w).
    { repeat match goal with
             | H : Forall _ (_ :: _) |- _ =>
                 apply Forall_cons_iff in H; destruct H as [[? ?] H]
             end.
      unfold waypoint_of_point, obind, parse_date, py_div.
      rewrite Hts, Hparse.
      repeat match goal with
             | H : getitem p ?k = Ok _ |- context [getitem p ?k] => rewrite H
             end.
      rewrite Hq. now eexists. }
    destruct Hmade as [w Hw].
    destruct (IH (Some w)) as (ws & Hws & Hlen & Hrel).
    exists (w :: ws). simpl. unfold obind. rewrite Hw, Hws.
    split; [reflexivity|]. split; [now rewrite Hlen|].
    intros [|i] p' w' Hi Hi'; simpl in Hi, Hi'.
    + injection Hi as <-. injection Hi' as <-.
      now apply waypoint_of_point_inv.
    + specialize (Hrel i p' w' Hi Hi').
      destruct i; exact Hrel.
Qed.

(** The loop keeps the lengths, and the tag of each waypoint comes from
    its marker and the waypoint before it. *)
Lemma waypoints_of_points_tags (last : option Waypoint) (points : list pyval)
  (ws : list Waypoint) :
  waypoints_of_points parse last points = Ok ws ->
  forall i w,
    ws !! i = Some w ->
    exists pause, wp_Type w = waypoint_type pause (before last ws i).
Proof.
  revert last ws. induction points as [|p points IH]; intros last ws; simpl.
  - intros [= <-] i w Hi. destruct i; discriminate Hi.
  - unfold obind.
    destruct (waypoint_of_point parse last p) as [w0|] eqn:Hw0; [|discriminate].
    destruct (waypoints_of_points parse (Some w0) points) as [more|] eqn:Hmore;
      [|discriminate].
    intros [= <-] [|i] w Hi; simpl in Hi.
    + injection Hi as <-.
      destruct (waypoint_of_point_inv _ _ _ Hw0) as (_ & (pause & _ & Ht) & _).
      now exists pause.
    + destruct (IH _ _ Hmore i w Hi) as [pause Ht].
      exists pause. destruct i; exact Ht.
Qed.

(** X10.  In the waypoints the loop makes, none is tagged Start or End,
    the first is never a Resume, and a waypoint is a Resume exactly
    when it is not a Pause itself and the waypoint just before it is
    one. *)
Theorem resume_follows_pause (points : list pyval) (ws : list Waypoint) :
  waypoints_of_points parse None points = Ok ws ->
  forall i w,
    ws !! i = Some w ->
    wp_Type w <> WaypointType.Start
    /\ wp_Type w <> WaypointType.End_
    /\ (wp_Type w = WaypointType.Resume <->
        wp_Type w <> WaypointType.Pause
        /\ exists j prev,
             i = S j /\ ws !! j = Some prev
             /\ wp_Type prev = WaypointType.Pause).
Proof.
  intros Hws i w Hi.
  destruct (waypoints_of_points_tags None points ws Hws i w Hi) as [pause Ht].
  unfold waypoint_type in Ht.
  destruct (is_not_None pause).
  - rewrite Ht. repeat split; try discriminate.
    intros [Hne _]. now contradiction Hne.
  - destruct i as [|j]; simpl in Ht.
    + rewrite Ht. repeat split; try discriminate.
      intros [_ (j & prev & Hj & _)]. discriminate Hj.
    + destruct (ws !! j) as [prev|] eqn:Hprev.
      * destruct (wp_Type prev) eqn:Hprevt; simpl in Ht; rewrite Ht;
          repeat split; try discriminate;
          try (intros [_ (j' & prev' & [= <-] & Hj' & Hp)];
               rewrite Hprev in Hj'; injection Hj' as <-; congruence).
        exists j, prev. now repeat split.
      * rewrite Ht. repeat split; try discriminate.
        intros [_ (j' & prev' & [= <-] & Hj' & _)]. congruence.
Qed.

(** X11.  On two waypoints or more, [mark_Start_End] keeps the number
    of waypoints; the waypoint at each place has the tag Start at the
    first place, End at the last place and the tag it had anywhere
    else, and its timestamp, location, heart rate, speed, distance,
    cadence, steps and power are what they were. *)
Theorem mark_Start_End_spec (ws : list Waypoint) :
  (2 <= length ws)%nat ->
  length (mark_Start_End ws) = length ws
  /\ forall i w,
       ws !! i = Some w ->
       exists w',
         mark_Start_End ws !! i = Some w'
         /\ wp_Type w'
            = (if (i =? 0)%nat then WaypointType.Start
               else if (i =? length ws - 1)%nat then WaypointType.End_
                    else wp_Type w)
         /\ Timestamp w' = Timestamp w
         /\ wp_Location w' = wp_Location w
         /\ HR w' = HR w
         /\ Speed w' = Speed w
         /\ wp_Distance w' = wp_Distance w
         /\ Cadence w' = Cadence w
         /\ RunCadence w' = RunCadence w
         /\ Power w' = Power w.
Proof.
  intros Hlen. unfold mark_Start_End.
  split; [now rewrite !length_alter|].
  intros i w Hi. rewrite length_alter.
  destruct (Nat.eqb_spec i 0) as [->|Hne0].
  - rewrite list_lookup_alter_ne by lia.
    rewrite list_lookup_alter_eq, Hi. eexists. split; [reflexivity|].
    now repeat split.
  - destruct (Nat.eqb_spec i (length ws - 1)) as [->|Hnel].
    + rewrite list_lookup_alter_eq.
      rewrite list_lookup_alter_ne by lia. rewrite Hi.
      eexists. split; [reflexivity|]. now repeat split.
    + rewrite !list_lookup_alter_ne by lia. exists w. now repeat split.
Qed.

End Decoding.

(** The sample stream of four points. *)
Lemma points_become_waypoints_witness :
  exists ws,
    waypoints_of_points Sample.parse None Sample.points = Ok ws
    /\ length ws = length Sample.points
    /\ forall i p w,
         Sample.points !! i = Some p -> ws !! i = Some w ->
         waypoint_from Sample.parse (before None ws i) p w.
Proof.
  apply (points_become_waypoints Sample.parse None Sample.points).
  repeat (constructor; [sample_decodable|]). constructor.
Defined.

(** The same stream: its one Resume is the third waypoint. *)
Lemma resume_follows_pause_witness :
  match waypoints_of_points Sample.parse None Sample.points with
  | Ok ws =>
      forall i w,
        ws !! i = Some w ->
        wp_Type w <> WaypointType.Start
        /\ wp_Type w <> WaypointType.End_
        /\ (wp_Type w = WaypointType.Resume <->
            wp_Type w <> WaypointType.Pause
            /\ exists j prev,
                 i = S j /\ ws !! j = Some prev
                 /\ wp_Type prev = WaypointType.Pause)
  | Raised _ => True
  end.
Proof.
  destruct (waypoints_of_points Sample.parse None Sample.points) as [ws|e] eqn:E;
    [|exact I].
  exact (resume_follows_pause Sample.parse Sample.points ws E).
Defined.

(** Two waypoints: the first becomes the Start and the second the End,
    and the second keeps its location in Munich and its heart rate. *)
Lemma mark_Start_End_spec_witness :
  exists first second,
    mark_Start_End [Sample.zero_waypoint; Sample.munich_waypoint]
    = [first; second]
    /\ wp_Type first = WaypointType.Start
    /\ wp_Location first = Some (mkLocation (VNum 0) (VNum 11) (VNum 0))
    /\ wp_Type second = WaypointType.End_
    /\ wp_Location second = Some (mkLocation (VNum 48) (VNum 11) (VNum 500))
    /\ HR second = VNum 120.
Proof.
  destruct (mark_Start_End_spec [Sample.zero_waypoint; Sample.munich_waypoint])
    as [Hlen Hat]; [simpl; lia|].
  destruct (Hat 0%nat _ eq_refl)
    as (first & Hfirst & Htag1 & _ & Hloc1 & _).
  destruct (Hat 1%nat _ eq_refl)
    as (second & Hsecond & Htag2 & _ & Hloc2 & Hhr2 & _).
  exists first, second.
  split; [|now repeat split].
  destruct (mark_Start_End [Sample.zero_waypoint; Sample.munich_waypoint])
    as [|a [|b [|c l]]]; try discriminate Hlen.
  simpl in Hfirst, Hsecond. congruence.
Defined.

(** ** Download of an activity, in general *)

Section DownloadMore.

Variable POWERTRAXX_CLIENT_ID : string.
Variable POWERTRAXX_CLIENT_SECRET : string.
Variable repr : pyval -> string.
Variable parse : string -> option datetime.

Local Abbreviation getAuthHeaders :=
  (_getAuthHeaders POWERTRAXX_CLIENT_ID POWERTRAXX_CLIENT_SECRET repr).
Local Abbreviation downloadActivity :=
  (_downloadActivity POWERTRAXX_CLIENT_ID POWERTRAXX_CLIENT_SECRET repr parse).

(** Decodable points are all decoded. *)
Lemma waypoints_of_points_decodable (last : option Waypoint) (points : list pyval) :
  Forall (decodable parse) points ->
  exists ws,
    waypoints_of_points parse last points = Ok ws
    /\ length ws = length points.
Proof.
  intros Hall. revert last.
  induction Hall as [|p points Hp _ IH]; intros last.
  - now exists [].
  - destruct Hp as (Hts & Hspeed & Hkeys).
    assert (Hpause : exists pause, getitem p "Pause" = Ok pause).
    { apply Forall_cons_iff in Hkeys. destruct Hkeys as [_ Hkeys].
      apply Forall_cons_iff in Hkeys. now destruct Hkeys as [Hpause _]. }
    destruct Hpause as [pause Hpause].
    destruct (waypoint_of_point_decodable parse last p pause
                (conj Hts (conj Hspeed Hkeys)) Hpause) as (w & Hw & _).
    destruct (IH (Some w)) as (ws & Hws & Hlen).
    exists (w :: ws). simpl. unfold obind. rewrite Hw, Hws.
    split; [reflexivity | now rewrite Hlen].
Qed.

(** X12.  A download whose answer is 200 with decodable points succeeds
    after one GET for the activity: the activity returned keeps id,
    name, type, times and statistics, takes GPS and privacy from the
    answer and the notes from a comment that is not empty, and has one
    lap with the times and statistics of the activity and one waypoint
    per point.  With at most one point it is stationary and the
    waypoints stay as the loop tagged them; with more it is not, and
    the first and the last waypoint are marked Start and End. *)
Theorem download_decodes (sr : ServiceRecord) (activity : Activity)
  (w w1 : World) (id : string) (hdrs : list (string * string))
  (dt : timedelta) (response : Response) (rest : list (timedelta * Response))
  (activityData comment hasGps isPublic : pyval) (points : list pyval) :
  getitem (VDict (ServiceData activity)) "ActivityID" = Ok (VStr id) ->
  getAuthHeaders sr w = (Ok hdrs, w1) ->
  replies w1 = (dt, response) :: rest ->
  status_code response = 200 ->
  json response = Some activityData ->
  getitem activityData "Comment" = Ok comment ->
  getitem activityData "HasGps" = Ok hasGps ->
  getitem activityData "IsPublic" = Ok isPublic ->
  getitem activityData "Points" = Ok (VList points) ->
  Forall (decodable parse) points ->
  exists ws,
    waypoints_of_points parse None points = Ok ws
    /\ length ws = length points
    /\ fst (downloadActivity sr activity w)
       = Ok {| ServiceData := ServiceData activity;
               Name := Name activity;
               Notes := if truthy comment then comment else Notes activity;
               act_Type := act_Type activity;
               StartTime := StartTime activity;
               EndTime := EndTime activity;
               Private := negb (truthy isPublic);
               GPS := hasGps;
               Stationary := VBool (length points <=? 1)%nat;
               Stats := Stats activity;
               Laps :=
                 [{| lap_Stats := Stats activity;
                     lap_StartTime := StartTime activity;
                     lap_EndTime := EndTime activity;
                     Waypoints :=
                       if (length points <=? 1)%nat then ws
                       else mark_Start_End ws |}] |}
    /\ sent (snd (downloadActivity sr activity w))
       = app (sent w1)
           [{| method := GET; url := BaseUrl ++ "/api/activity/" ++ id;
               headers := hdrs; data := VNone |}].
Proof.
  intros Hid Hauth Hreply Hstatus Hjson Hcomment Hgps Hpublic Hpoints Hall.
  destruct (waypoints_of_points_decodable None points Hall)
    as (ws & Hws & Hlen).
  exists ws. split; [exact Hws|]. split; [exact Hlen|].
  assert (Hrun :
    downloadActivity sr activity w
    = (Ok {| ServiceData := ServiceData activity;
             Name := Name activity;
             Notes := if truthy comment then comment else Notes activity;
             act_Type := act_Type activity;
             StartTime := StartTime activity;
             EndTime := EndTime activity;
             Private := negb (truthy isPublic);
             GPS := hasGps;
             Stationary := VBool (length points <=? 1)%nat;
             Stats := Stats activity;
             Laps :=
               [{| lap_Stats := Stats activity;
                   lap_StartTime := StartTime activity;
                   lap_EndTime := EndTime activity;
                   Waypoints :=
                     if (length points <=? 1)%nat then ws
                     else mark_Start_End ws |}] |},
       {| now := now w1 + dt; tokenCache := tokenCache w1;
          serviceRecords := serviceRecords w1;
          sent :=
            app (sent w1)
              [{| method := GET; url := BaseUrl ++ "/api/activity/" ++ id;
                  headers := hdrs; data := VNone |}];
          replies := rest |})).
  { unfold _downloadActivity, bind, lift.
    rewrite Hid, Hauth. simpl as_str. cbv iota beta.
    unfold requests. rewrite Hreply, Hstatus.
    change (negb (200 =? 200)) with false. cbv iota beta.
    unfold json_of. rewrite Hjson, Hcomment, Hgps, Hpublic, Hpoints.
    simpl py_iter. cbv iota beta. rewrite Hws.
    unfold ret, CountTotalWaypoints. simpl. rewrite Nat.add_0_r, Hlen.
    now destruct (length points <=? 1)%nat. }
  rewrite Hrun. split; reflexivity.
Qed.

(** X13.  How a download fails.  Without an id in the service data it
    raises KeyError before anything is sent or any token is looked up.
    With headers at hand, an answer other than 200, 401 and 403 raises
    the generic error, which does not block.  And a first point that
    lacks nothing but a number for its speed raises TypeError, so that
    no activity is returned at all. *)
Theorem download_failures (sr : ServiceRecord) (activity : Activity) (w : World) :
  (assoc String.eqb "ActivityID" (ServiceData activity) = None ->
   downloadActivity sr activity w = (Raised (KeyError "ActivityID"), w))
  /\ (forall id hdrs w1 dt response rest,
         getitem (VDict (ServiceData activity)) "ActivityID" = Ok (VStr id) ->
         getAuthHeaders sr w = (Ok hdrs, w1) ->
         replies w1 = (dt, response) :: rest ->
         status_code response <> 200 ->
         status_code response <> 401 ->
         status_code response <> 403 ->
         exists msg,
           fst (downloadActivity sr activity w)
           = Raised (APIError {| message := msg; block := false;
                                 user_exception := None |}))
  /\ (forall id hdrs w1 dt response rest activityData comment hasGps isPublic
             p more s t speed,
         getitem (VDict (ServiceData activity)) "ActivityID" = Ok (VStr id) ->
         getAuthHeaders sr w = (Ok hdrs, w1) ->
         replies w1 = (dt, response) :: rest ->
         status_code response = 200 ->
         json response = Some activityData ->
         getitem activityData "Comment" = Ok comment ->
         getitem activityData "HasGps" = Ok hasGps ->
         getitem activityData "IsPublic" = Ok isPublic ->
         getitem activityData "Points" = Ok (VList (p :: more)) ->
         getitem p "TimeStamp" = Ok (VStr s) -> parse s = Some t ->
         Forall (fun key => exists v, getitem p key = Ok v)
           ["Distance"; "Pause"; "Lat"; "Lon"; "Elevation"; "Power";
            "Cadence"; "Steps"] ->
         getitem p "Speed" = Ok speed -> as_number speed = None ->
         fst (downloadActivity sr activity w) = Raised TypeError).
Proof.
  repeat split.
  - intros Hid. unfold _downloadActivity, bind, lift, getitem. now rewrite Hid.
  - intros id hdrs w1 dt response rest Hid Hauth Hreply H200 H401 H403.
    unfold _downloadActivity, bind, lift. rewrite Hid, Hauth. simpl as_str.
    cbv iota beta. unfold requests. rewrite Hreply.
    destruct (Z.eqb_spec (status_code response) 200); [contradiction|].
    destruct (Z.eqb_spec (status_code response) 401); [contradiction|].
    destruct (Z.eqb_spec (status_code response) 403); [contradiction|].
    simpl. now eexists.
  - intros id hdrs w1 dt response rest activityData comment hasGps isPublic
      p more s t speed Hid Hauth Hreply Hstatus Hjson Hcomment Hgps Hpublic
      Hpoints Hts Hparse Hkeys Hspeed Hnum.
    repeat match goal with
           | H : Forall _ (_ :: _) |- _ =>
               apply Forall_cons_iff in H; destruct H as [[? ?] H]
           end.
    unfold _downloadActivity, bind, lift. rewrite Hid, Hauth. simpl as_str.
    cbv iota beta. unfold requests. rewrite Hreply, Hstatus.
    change (negb (200 =? 200)) with false. cbv iota beta.
    unfold json_of. rewrite Hjson, Hcomment, Hgps, Hpublic, Hpoints.
    simpl py_iter. cbv iota beta.
    simpl waypoints_of_points.
    unfold obind at 1. unfold waypoint_of_point, obind, parse_date, py_div.
    rewrite Hts, Hparse.
    repeat match goal with
           | H : getitem p ?k = Ok _ |- context [getitem p ?k] => rewrite H
           end.
    now rewrite Hnum.
Qed.

End DownloadMore.

(** A download of one point: stationary, and its waypoint is not marked. *)
Lemma download_decodes_witness :
  exists ws,
    waypoints_of_points Sample.parse None
      [Sample.point "2016-05-01T10:00:00Z" VNone] = Ok ws
    /\ length ws = length [Sample.point "2016-05-01T10:00:00Z" VNone]
    /\ fst (_downloadActivity Sample.client_id Sample.client_secret Sample.repr
              Sample.parse Sample.account Sample.manual
              (Sample.fresh
                 [(0, Sample.detail [Sample.point "2016-05-01T10:00:00Z" VNone])]))
       = Ok {| ServiceData := ServiceData Sample.manual;
               Name := Name Sample.manual;
               Notes := if truthy (VStr "") then VStr "" else Notes Sample.manual;
               act_Type := act_Type Sample.manual;
               StartTime := StartTime Sample.manual;
               EndTime := EndTime Sample.manual;
               Private := negb (truthy (VBool true));
               GPS := VBool true;
               Stationary :=
                 VBool (length [Sample.point "2016-05-01T10:00:00Z" VNone] <=? 1)%nat;
               Stats := Stats Sample.manual;
               Laps :=
                 [{| lap_Stats := Stats Sample.manual;
                     lap_StartTime := StartTime Sample.manual;
                     lap_EndTime := EndTime Sample.manual;
                     Waypoints :=
                       if (length [Sample.point "2016-05-01T10:00:00Z" VNone] <=? 1)%nat
                       then ws else mark_Start_End ws |}] |}
    /\ sent (snd (_downloadActivity Sample.client_id Sample.client_secret
                    Sample.repr Sample.parse Sample.account Sample.manual
                    (Sample.fresh
                       [(0, Sample.detail
                              [Sample.point "2016-05-01T10:00:00Z" VNone])])))
       = app (sent (Sample.fresh
                      [(0, Sample.detail
                             [Sample.point "2016-05-01T10:00:00Z" VNone])]))
           [{| method := GET; url := BaseUrl ++ "/api/activity/" ++ "42";
               headers := [("Authorization", "Bearer A")]; data := VNone |}].
Proof.
  apply (download_decodes Sample.client_id Sample.client_secret Sample.repr
           Sample.parse Sample.account Sample.manual
           (Sample.fresh
              [(0, Sample.detail [Sample.point "2016-05-01T10:00:00Z" VNone])])
           (Sample.fresh
              [(0, Sample.detail [Sample.point "2016-05-01T10:00:00Z" VNone])])
           "42" [("Authorization", "Bearer A")] 0
           (Sample.detail [Sample.point "2016-05-01T10:00:00Z" VNone]) []
           (VDict [("Comment", VStr ""); ("HasGps", VBool true);
                   ("IsPublic", VBool true);
                   ("Points", VList [Sample.point "2016-05-01T10:00:00Z" VNone])])
           (VStr "") (VBool true) (VBool true)
           [Sample.point "2016-05-01T10:00:00Z" VNone]);
    try reflexivity.
  repeat (constructor; [sample_decodable|]). constructor.
Defined.

(** A download for an activity that was never listed. *)
Lemma download_failures_witness :
  _downloadActivity Sample.client_id Sample.client_secret Sample.repr
    Sample.parse Sample.account UploadedActivity (Sample.fresh [])
  = (Raised (KeyError "ActivityID"), Sample.fresh []).
Proof.
  apply (download_failures Sample.client_id Sample.client_secret Sample.repr
           Sample.parse Sample.account UploadedActivity (Sample.fresh [])).
  reflexivity.
Defined.

(** ** Upload and delete, continued *)

Section UploadMore.

Variable POWERTRAXX_CLIENT_ID : string.
Variable POWERTRAXX_CLIENT_SECRET : string.
Variable repr : pyval -> string.
Variable isoformat : datetime -> string.
Variable utcoffset : Z -> Z.
Variable convertValue :
  ActivityStatisticUnit.t -> ActivityStatisticUnit.t -> pyval -> pyval.

Local Abbreviation getAuthHeaders :=
  (_getAuthHeaders POWERTRAXX_CLIENT_ID POWERTRAXX_CLIENT_SECRET repr).
Local Abbreviation uploadActivity :=
  (UploadActivity POWERTRAXX_CLIENT_ID POWERTRAXX_CLIENT_SECRET repr
     isoformat utcoffset convertValue).
Local Abbreviation deleteActivity :=
  (DeleteActivity POWERTRAXX_CLIENT_ID POWERTRAXX_CLIENT_SECRET repr).

(** The payload of an activity, by its mode. *)
Local Abbreviation payload activity :=
  (if negb (truthy (GPS activity))
   then activity_data_summary isoformat convertValue activity
   else activity_data_points isoformat utcoffset activity).

(** [UploadActivity] is the payload followed by the post. *)
Lemma uploadActivity_post (sr : ServiceRecord) (activity : Activity) (w : World) :
  uploadActivity sr activity w
  = match payload activity with
    | Ok data =>
        post_activity POWERTRAXX_CLIENT_ID POWERTRAXX_CLIENT_SECRET repr sr data w
    | Raised e => (Raised e, w)
    end.
Proof.
  unfold UploadActivity, bind, lift.
  destruct (negb (truthy (GPS activity)));
    [destruct (activity_data_summary isoformat convertValue activity)
    |destruct (activity_data_points isoformat utcoffset activity)];
    reflexivity.
Qed.

(** The post with headers at hand and an answer. *)
Lemma post_activity_run (sr : ServiceRecord) (data : list (string * pyval))
  (w w1 : World) (hdrs : list (string * string)) (dt : timedelta)
  (response : Response) (rest : list (timedelta * Response)) :
  getAuthHeaders sr w = (Ok hdrs, w1) ->
  replies w1 = (dt, response) :: rest ->
  post_activity POWERTRAXX_CLIENT_ID POWERTRAXX_CLIENT_SECRET repr sr data w
  = ((if negb (status_code response =? 200) then
        if status_code response =? 401 then
          Raised (APIError
                    {| message := "ST.mobi trial expired"; block := true;
                       user_exception :=
                         Some (mkUserException
                                 UserExceptionType.AccountExpired true) |})
        else
          Raised (APIError
                    (APIException_
                       ("Unable to upload activity " ++ text response)))
      else obind (json_of response) (fun j => getitem j "AcId")),
     {| now := now w1 + dt; tokenCache := tokenCache w1;
        serviceRecords := serviceRecords w1;
        sent :=
          app (sent w1)
            [{| method := POST; url := BaseUrl ++ "/api/activity";
                headers := setitem "Content-Type" "application/json" hdrs;
                data := VDict data |}];
        replies := rest |}).
Proof.
  intros Hauth Hreply.
  unfold post_activity, bind at 1. rewrite Hauth.
  unfold bind at 1. unfold requests. rewrite Hreply.
  destruct (negb (status_code response =? 200)).
  - now destruct (status_code response =? 401).
  - unfold bind, lift, obind. now destruct (json_of response).
Qed.

(** X14.  An upload that the provider accepts: once the payload of the
    mode of the activity is built, the headers are there and the answer
    is 200 with an [AcId], [UploadActivity] returns that id, having sent
    one POST to the activity endpoint with the payload as its body and
    the headers of [_getAuthHeaders] with the JSON content type. *)
Theorem upload_accepted (sr : ServiceRecord) (activity : Activity)
  (data : list (string * pyval)) (w w1 : World)
  (hdrs : list (string * string)) (dt : timedelta) (response : Response)
  (rest : list (timedelta * Response)) (j acId : pyval) :
  payload activity = Ok data ->
  getAuthHeaders sr w = (Ok hdrs, w1) ->
  replies w1 = (dt, response) :: rest ->
  status_code response = 200 ->
  json response = Some j ->
  getitem j "AcId" = Ok acId ->
  fst (uploadActivity sr activity w) = Ok acId
  /\ sent (snd (uploadActivity sr activity w))
     = app (sent w1)
         [{| method := POST; url := BaseUrl ++ "/api/activity";
             headers := setitem "Content-Type" "application/json" hdrs;
             data := VDict data |}]
  /\ assoc String.eqb "Content-Type"
       (setitem "Content-Type" "application/json" hdrs)
     = Some "application/json"
  /\ assoc String.eqb "Authorization"
       (setitem "Content-Type" "application/json" hdrs)
     = assoc String.eqb "Authorization" hdrs.
Proof.
  intros Hdata Hauth Hreply Hstatus Hjson Hid.
  rewrite uploadActivity_post, Hdata.
  rewrite (post_activity_run sr data w w1 hdrs dt response rest Hauth Hreply).
  rewrite Hstatus. unfold json_of, obind. rewrite Hjson, Hid.
  repeat split.
  - apply assoc_setitem_same.
  - now apply assoc_setitem_other.
Qed.

(** X15.  How an upload fails.  A payload that cannot be built fails
    before any token is looked up or anything is sent.  With the payload
    built and headers at hand, a status other than 200 and 401 raises
    the generic error with the body of the answer, which does not
    block; and an answer 200 whose body is not JSON, or is an object
    without [AcId], raises ValueError or KeyError although the request
    was accepted. *)
Theorem upload_failures (sr : ServiceRecord) (activity : Activity) (w : World) :
  (forall e,
      payload activity = Raised e ->
      uploadActivity sr activity w = (Raised e, w))
  /\ (forall data hdrs w1 dt response rest,
         payload activity = Ok data ->
         getAuthHeaders sr w = (Ok hdrs, w1) ->
         replies w1 = (dt, response) :: rest ->
         (status_code response <> 200 -> status_code response <> 401 ->
          fst (uploadActivity sr activity w)
          = Raised (APIError
                      {| message := "Unable to upload activity " ++ text response;
                         block := false; user_exception := None |}))
         /\ (status_code response = 200 -> json response = None ->
             fst (uploadActivity sr activity w) = Raised ValueError)
         /\ (forall kv,
                status_code response = 200 ->
                json response = Some (VDict kv) ->
                assoc String.eqb "AcId" kv = None ->
                fst (uploadActivity sr activity w) = Raised (KeyError "AcId"))).
Proof.
  split.
  - intros e He. now rewrite uploadActivity_post, He.
  - intros data hdrs w1 dt response rest Hdata Hauth Hreply.
    rewrite uploadActivity_post, Hdata.
    rewrite (post_activity_run sr data w w1 hdrs dt response rest Hauth Hreply).
    cbn [fst]. repeat split.
    + intros H200 H401.
      destruct (Z.eqb_spec (status_code response) 200); [contradiction|].
      destruct (Z.eqb_spec (status_code response) 401); [contradiction|].
      reflexivity.
    + intros -> Hjson. unfold json_of. now rewrite Hjson.
    + intros kv -> Hjson Hid. unfold json_of. rewrite Hjson. simpl.
      now rewrite Hid.
Qed.

(** X17.  [DeleteActivity], with headers at hand, sends one DELETE for
    the upload, fails with the HTTP error of the transport exactly when
    the status is from 400 to 599, and returns nothing otherwise. *)
Theorem delete_outcome (sr : ServiceRecord) (uploadId : pyval) (w w1 : World)
  (hdrs : list (string * string)) (dt : timedelta) (response : Response)
  (rest : list (timedelta * Response)) :
  getAuthHeaders sr w = (Ok hdrs, w1) ->
  replies w1 = (dt, response) :: rest ->
  (400 <= status_code response < 600 ->
   fst (deleteActivity sr uploadId w) = Raised (HTTPError (status_code response)))
  /\ (~ 400 <= status_code response < 600 ->
      fst (deleteActivity sr uploadId w) = Ok tt)
  /\ sent (snd (deleteActivity sr uploadId w))
     = app (sent w1)
         [{| method := DELETE;
             url := BaseUrl ++ "/api/activity/" ++ str repr uploadId;
             headers := hdrs; data := VNone |}].
Proof.
  intros Hauth Hreply.
  assert (Hrun :
    deleteActivity sr uploadId w
    = raise_for_status response
        {| now := now w1 + dt; tokenCache := tokenCache w1;
           serviceRecords := serviceRecords w1;
           sent :=
             app (sent w1)
               [{| method := DELETE;
                   url := BaseUrl ++ "/api/activity/" ++ str repr uploadId;
                   headers := hdrs; data := VNone |}];
           replies := rest |}).
  { unfold DeleteActivity, bind. rewrite Hauth.
    unfold requests. now rewrite Hreply. }
  rewrite Hrun. unfold raise_for_status.
  destruct (Z.leb_spec 400 (status_code response));
    destruct (Z.ltb_spec (status_code response) 600); simpl;
    repeat split; intros; first [reflexivity | lia | tauto].
Qed.

End UploadMore.

(** The sample upload without GPS, accepted. *)
Lemma upload_accepted_witness :
  fst (UploadActivity Sample.client_id Sample.client_secret Sample.repr
         Sample.isoformat Sample.utcoffset Sample.convertValue
         Sample.account Sample.manual (Sample.fresh [(0, Sample.accepted)]))
  = Ok (VStr "7").
Proof.
  apply (upload_accepted Sample.client_id Sample.client_secret Sample.repr
           Sample.isoformat Sample.utcoffset Sample.convertValue
           Sample.account Sample.manual
           [("name", VStr "Morning run"); ("comment", VNone);
            ("date", VStr "1462096800000000"); ("share", VBool true);
            ("duration", VNum 1800); ("pause", VNum 300);
            ("sportType", VNum 4); ("distance", VList [VNum 5000])]
           (Sample.fresh [(0, Sample.accepted)])
           (Sample.fresh [(0, Sample.accepted)])
           [("Authorization", "Bearer A")] 0 Sample.accepted []
           (VDict [("AcId", VStr "7")]) (VStr "7"));
    reflexivity.
Defined.

(** An upload without GPS whose timer is not a number. *)
Lemma upload_failures_witness :
  UploadActivity Sample.client_id Sample.client_secret Sample.repr
    Sample.isoformat Sample.utcoffset Sample.convertValue Sample.account
    (Sample.activity VNone (VNum 5000) (VStr "half an hour") (VNum 1500) [])
    (Sample.fresh [])
  = (Raised TypeError, Sample.fresh []).
Proof.
  apply (upload_failures Sample.client_id Sample.client_secret Sample.repr
           Sample.isoformat Sample.utcoffset Sample.convertValue Sample.account
           (Sample.activity VNone (VNum 5000) (VStr "half an hour") (VNum 1500) [])
           (Sample.fresh [])).
  reflexivity.
Defined.

(** A deletion answered with 404. *)
Lemma delete_outcome_witness :
  fst (DeleteActivity Sample.client_id Sample.client_secret Sample.repr
         Sample.account (VStr "7") (Sample.fresh [(0, Sample.answer 404 None)]))
  = Raised (HTTPError (status_code (Sample.answer 404 None))).
Proof.
  apply (delete_outcome Sample.client_id Sample.client_secret Sample.repr
           Sample.account (VStr "7")
           (Sample.fresh [(0, Sample.answer 404 None)])
           (Sample.fresh [(0, Sample.answer 404 None)])
           [("Authorization", "Bearer A")] 0 (Sample.answer 404 None) []).
  - reflexivity.
  - reflexivity.
  - simpl. lia.
Defined.

(** ** The payload with GPS *)

Section PointsMore.

Variable isoformat : datetime -> string.
Variable utcoffset : Z -> Z.

Lemma NoDup_point_keys : NoDup point_keys.
Proof.
  unfold point_keys.
  repeat (apply NoDup_cons_2;
          [rewrite ?elem_of_cons, elem_of_nil; intuition discriminate|]).
  apply NoDup_nil_2.
Qed.

Lemma lookup_map {A B : Type} (f : A -> B) (l : list A) (i : nat) (x : A) :
  l !! i = Some x -> map f l !! i = Some (f x).
Proof.
  revert i. induction l as [|y l IH]; intros [|i]; simpl; try discriminate.
  - now intros [= ->].
  - apply IH.
Qed.

(** The keys of a point record, in the order they were set. *)
Lemma point_record_keys (wp : Waypoint) :
  map fst (point_record utcoffset wp)
  = ((if has_lat_lon wp then ["lat"; "lon"] else [])
     ++ (if has_altitude wp then ["ele"] else [])
     ++ (match Timestamp wp with Some _ => ["timestampValue"] | None => [] end)
     ++ (if truthy (HR wp) then ["heartrate"] else [])
     ++ (if truthy (Speed wp) then ["speed"] else [])
     ++ (if truthy (wp_Distance wp) then ["distance"] else [])
     ++ (if truthy (Cadence wp) then ["cadence"] else [])
     ++ (if truthy (RunCadence wp) then ["steps"] else [])
     ++ (if truthy (Power wp) then ["power"] else []))%list.
Proof.
  unfold point_record, when_.
  destruct (has_lat_lon wp), (has_altitude wp), (Timestamp wp),
    (truthy (HR wp)), (truthy (Speed wp)), (truthy (wp_Distance wp)),
    (truthy (Cadence wp)), (truthy (RunCadence wp)), (truthy (Power wp));
    reflexivity.
Qed.

(** X16.  The payload of an activity with GPS has the four entries
    activity, activityRawFormatList, start_time and share; the list has
    one record per waypoint of the laps, in order; and in every record
    the keys are distinct and come in the order lat, lon, ele,
    timestampValue, heartrate, speed, distance, cadence, steps, power. *)
Theorem points_payload_shape (activity : Activity) (data : list (string * pyval)) :
  activity_data_points isoformat utcoffset activity = Ok data ->
  map fst data = ["activity"; "activityRawFormatList"; "start_time"; "share"]
  /\ (exists records,
         assoc String.eqb "activityRawFormatList" data = Some (VList records)
         /\ length records = length (GetFlatWaypoints activity)
         /\ forall i wp,
              GetFlatWaypoints activity !! i = Some wp ->
              records !! i = Some (VDict (point_record utcoffset wp)))
  /\ (forall wp,
         sublist (map fst (point_record utcoffset wp)) point_keys
         /\ NoDup (map fst (point_record utcoffset wp))).
Proof.
  unfold activity_data_points, obind.
  destruct (reverseMap (act_Type activity)) as [sportType|]; [|discriminate].
  intros [= <-]. split; [reflexivity|]. split.
  - eexists. split; [reflexivity|]. split.
    + now rewrite length_map.
    + intros i wp Hi.
      exact (lookup_map (fun wp0 => VDict (point_record utcoffset wp0))
               _ _ _ Hi).
  - intros wp.
    assert (Hsub : sublist (map fst (point_record utcoffset wp)) point_keys).
    { rewrite point_record_keys. unfold point_keys.
      change ["lat"; "lon"; "ele"; "timestampValue"; "heartrate"; "speed";
              "distance"; "cadence"; "steps"; "power"]
        with (["lat"; "lon"] ++ ["ele"] ++ ["timestampValue"] ++ ["heartrate"]
              ++ ["speed"] ++ ["distance"] ++ ["cadence"] ++ ["steps"]
              ++ ["power"])%list.
      repeat apply sublist_app;
        match goal with
        | |- sublist (if ?c then _ else _) _ =>
            destruct c; [reflexivity | apply sublist_nil_l]
        | |- sublist (match ?o with Some _ => _ | None => _ end) _ =>
            destruct o; [reflexivity | apply sublist_nil_l]
        end. }
    split; [exact Hsub|].
    exact (sublist_NoDup _ _ NoDup_point_keys Hsub).
Qed.

End PointsMore.

(** The payload of the sample activity with GPS. *)
Lemma points_payload_shape_witness :
  map fst
    [("activity", VDict [("name", VStr "Morning run"); ("sportType", VNum 4)]);
     ("activityRawFormatList",
      VList [VDict [("timestampValue", VNum 1462096800)]]);
     ("start_time", VStr "1462096800000000"); ("share", VBool true)]
  = ["activity"; "activityRawFormatList"; "start_time"; "share"].
Proof.
  apply (points_payload_shape Sample.isoformat Sample.utcoffset Sample.recorded).
  reflexivity.
Defined.

(** ** An account whose token has to be refreshed *)

Section Stale.

Variable POWERTRAXX_CLIENT_ID : string.
Variable POWERTRAXX_CLIENT_SECRET : string.
Variable repr : pyval -> string.
Variable parse : string -> option datetime.
Variable isoformat : datetime -> string.
Variable utcoffset : Z -> Z.
Variable convertValue :
  ActivityStatisticUnit.t -> ActivityStatisticUnit.t -> pyval -> pyval.

Local Abbreviation getAuthHeaders :=
  (_getAuthHeaders POWERTRAXX_CLIENT_ID POWERTRAXX_CLIENT_SECRET repr).

(** X18.  Once a refresh is due, because the cache has no entry for the
    account or the token of the service record is empty or has expired,
    no operation succeeds, whatever the provider answers: listing,
    download, upload and deletion all end in an exception, since the
    refresh itself never returns headers. *)
Theorem stale_account_cannot_sync (sr : ServiceRecord) (w : World) :
  fst (refresh_due sr w) = Ok true ->
  (forall exhaustive,
      exists e,
        fst (DownloadActivityList POWERTRAXX_CLIENT_ID POWERTRAXX_CLIENT_SECRET
               repr parse sr exhaustive w) = Raised e)
  /\ (forall activity,
         exists e,
           fst (DownloadActivity POWERTRAXX_CLIENT_ID POWERTRAXX_CLIENT_SECRET
                  repr parse sr activity w) = Raised e)
  /\ (forall activity,
         exists e,
           fst (UploadActivity POWERTRAXX_CLIENT_ID POWERTRAXX_CLIENT_SECRET
                  repr isoformat utcoffset convertValue sr activity w)
           = Raised e)
  /\ (forall uploadId,
         exists e,
           fst (DeleteActivity POWERTRAXX_CLIENT_ID POWERTRAXX_CLIENT_SECRET
                  repr sr uploadId w) = Raised e).
Proof.
  intros Hdue.
  destruct (getAuthHeaders_refresh_raises POWERTRAXX_CLIENT_ID
              POWERTRAXX_CLIENT_SECRET repr sr w Hdue) as (e & w' & Hraise & _).
  repeat split.
  - intros exhaustive. exists e.
    unfold DownloadActivityList, _getActivities, bind. now rewrite Hraise.
  - intros activity. unfold DownloadActivity, _downloadActivity, bind, lift.
    destruct (getitem (VDict (ServiceData activity)) "ActivityID") as [id|e0].
    + exists e. now rewrite Hraise.
    + now exists e0.
  - intros activity. unfold UploadActivity, post_activity, bind, lift.
    destruct (negb (truthy (GPS activity)));
      [destruct (activity_data_summary isoformat convertValue activity)
         as [data|e0]
      |destruct (activity_data_points isoformat utcoffset activity)
         as [data|e0]];
      first [exists e; now rewrite Hraise | now exists e0].
  - intros uploadId. exists e. unfold DeleteActivity, bind. now rewrite Hraise.
Qed.

End Stale.

(** The sample account after its record has expired, the refresh
    granted: the list cannot be fetched. *)
Lemma stale_account_cannot_sync_witness :
  exists e,
    fst (DownloadActivityList Sample.client_id Sample.client_secret Sample.repr
           Sample.parse Sample.lapsed_account false
           (Sample.lapsed [(0, Sample.granted); (0, Sample.listing)]))
    = Raised e.
Proof.
  apply (stale_account_cannot_sync Sample.client_id Sample.client_secret
           Sample.repr Sample.parse Sample.isoformat Sample.utcoffset
           Sample.convertValue Sample.lapsed_account
           (Sample.lapsed [(0, Sample.granted); (0, Sample.listing)])).
  reflexivity.
Defined.

(** ** Sport types, continued *)

(** X19.  The codes for upload tell the activity types apart: two types
    with the same code are the same type.  The types with a code are
    exactly the types that the forward mapping can yield, so that an
    activity that was listed can be uploaded; the codes lie between 2
    and 99.  An activity of any other type, such as a session in the
    gym that came from another service, cannot be uploaded: the lookup
    of its code raises KeyError before a token is looked up or anything
    is sent, in the mode with GPS and, once the pause is resolved, in
    the mode without.  The forward mapping is not one to one. *)
Theorem reverseMap_distinct_codes :
  (forall a b code,
      reverseMap a = Ok code -> reverseMap b = Ok code -> a = b)
  /\ (forall ty,
         (exists sportType, forwardMap sportType = Ok ty)
         <-> (exists code : Z,
                reverseMap ty = Ok (VNum (inject_Z code)) /\ 2 <= code <= 99))
  /\ (forall ty,
         (forall sportType, forwardMap sportType <> Ok ty) ->
         reverseMap ty = Raised (KeyError "activity.Type")
         /\ forall POWERTRAXX_CLIENT_ID POWERTRAXX_CLIENT_SECRET repr
                   isoformat utcoffset convertValue sr activity w,
              act_Type activity = ty ->
              truthy (GPS activity) = true
              \/ (exists pause, _resolvePause convertValue activity = Ok pause) ->
              UploadActivity POWERTRAXX_CLIENT_ID POWERTRAXX_CLIENT_SECRET repr
                isoformat utcoffset convertValue sr activity w
              = (Raised (KeyError "activity.Type"), w))
  /\ forwardMap (VStr "bicycle") = Ok ActivityType.Cycling
  /\ forwardMap (VStr "racingbicycle") = Ok ActivityType.Cycling.
Proof.
  split; [|split; [|split; [|split; reflexivity]]].
  - intros a b code Ha Hb.
    destruct a; try discriminate Ha; destruct b; try discriminate Hb;
      first [reflexivity | rewrite <- Hb in Ha; discriminate Ha].
  - intros ty. split.
    + intros [sportType H]. unfold forwardMap, _activityMappings_get in H.
      destruct sportType as [| | |s| |];
        try discriminate H;
        try (injection H as <-; exists 99; split; [reflexivity | lia]).
      simpl in H.
      repeat match type of H with
             | context [String.eqb ?x ?k] =>
                 destruct (String.eqb x k); simpl in H
             end;
        injection H as <-; eexists; (split; [reflexivity | lia]).
    + intros (code & Hcode & _).
      destruct ty; try discriminate Hcode;
        first [ exists (VStr "run"); reflexivity
              | exists (VStr "bicycle"); reflexivity
              | exists (VStr "mountainbike"); reflexivity
              | exists (VStr "walking"); reflexivity
              | exists (VStr "hike"); reflexivity
              | exists (VStr "snowboard"); reflexivity
              | exists (VStr "skialpin"); reflexivity
              | exists (VStr "classicskiing"); reflexivity
              | exists (VStr "skating"); reflexivity
              | exists (VStr "swim"); reflexivity
              | exists (VStr "elliptical"); reflexivity
              | exists (VStr "other"); reflexivity ].
  - intros ty Hno.
    assert (Hr : reverseMap ty = Raised (KeyError "activity.Type")).
    { destruct ty; try reflexivity; exfalso;
        first [ now apply (Hno (VStr "run"))
              | now apply (Hno (VStr "bicycle"))
              | now apply (Hno (VStr "mountainbike"))
              | now apply (Hno (VStr "walking"))
              | now apply (Hno (VStr "hike"))
              | now apply (Hno (VStr "snowboard"))
              | now apply (Hno (VStr "skialpin"))
              | now apply (Hno (VStr "classicskiing"))
              | now apply (Hno (VStr "skating"))
              | now apply (Hno (VStr "swim"))
              | now apply (Hno (VStr "elliptical"))
              | now apply (Hno (VStr "other")) ]. }
    split; [exact Hr|].
    intros ID SECRET repr isoformat utcoffset convertValue sr activity w
      Hty Hmode.
    rewrite uploadActivity_post.
    unfold activity_data_summary, activity_data_points, obind.
    rewrite Hty, Hr.
    destruct (truthy (GPS activity)); simpl.
    + reflexivity.
    + destruct Hmode as [Hgps|[pause Hpause]]; [discriminate Hgps|].
      now rewrite Hpause.
Qed.

(** Running, the type of "run", has a code.  The session in the gym,
    which no listing yields, cannot be uploaded. *)
Lemma reverseMap_distinct_codes_witness :
  (exists code : Z,
      reverseMap ActivityType.Running = Ok (VNum (inject_Z code))
      /\ 2 <= code <= 99)
  /\ act_Type Sample.gym = ActivityType.Unlisted "Gym"
  /\ UploadActivity Sample.client_id Sample.client_secret Sample.repr
       Sample.isoformat Sample.utcoffset Sample.convertValue Sample.account
       Sample.gym (Sample.fresh [(0, Sample.accepted)])
     = (Raised (KeyError "activity.Type"), Sample.fresh [(0, Sample.accepted)]).
Proof.
  destruct reverseMap_distinct_codes as (_ & Himage & Hnone & _).
  split.
  - apply Himage. exists (VStr "run"). reflexivity.
  - split; [reflexivity|].
    destruct (Hnone (ActivityType.Unlisted "Gym")) as [_ Hup].
    + intros sportType H.
      destruct (proj1 (Himage _) (ex_intro _ sportType H)) as (code & Hc & _).
      discriminate Hc.
    + apply Hup; [reflexivity | left; reflexivity].
Defined.

(** ** From download to upload, and from the list to the download *)

Section RoundTrip.

Variable POWERTRAXX_CLIENT_ID : string.
Variable POWERTRAXX_CLIENT_SECRET : string.
Variable repr : pyval -> string.
Variable parse : string -> option datetime.
Variable utcoffset : Z -> Z.

Local Abbreviation getAuthHeaders :=
  (_getAuthHeaders POWERTRAXX_CLIENT_ID POWERTRAXX_CLIENT_SECRET repr).
Local Abbreviation downloadActivity :=
  (_downloadActivity POWERTRAXX_CLIENT_ID POWERTRAXX_CLIENT_SECRET repr parse).


(** X21.  An activity made from an item of the list is downloaded from
    the address of the id of that item: with headers at hand, the
    download sends one GET to the activity endpoint followed by that
    id, whatever the answer is going to be. *)
Theorem listed_activity_is_fetched_by_id (item : pyval) (activity : Activity)
  (sr : ServiceRecord) (w w1 : World) (hdrs : list (string * string))
  (dt : timedelta) (response : Response) (rest : list (timedelta * Response)) :
  activity_of_item parse item = Ok activity ->
  getAuthHeaders sr w = (Ok hdrs, w1) ->
  replies w1 = (dt, response) :: rest ->
  exists id,
    getitem item "Id" = Ok (VStr id)
    /\ sent (snd (downloadActivity sr activity w))
       = app (sent w1)
           [{| method := GET; url := BaseUrl ++ "/api/activity/" ++ id;
               headers := hdrs; data := VNone |}].
Proof.
  intros Hitem Hauth Hreply.
  assert (Hid : exists id,
             getitem item "Id" = Ok (VStr id)
             /\ ServiceData activity = [("ActivityID", VStr id)]).
  { revert Hitem. unfold activity_of_item, obind.
    destruct (getitem item "Id") as [[| | |id| |]|]; try discriminate.
    simpl as_str. cbv iota beta.
    destruct (getitem item "SportType") as [st|]; [|discriminate].
    destruct (forwardMap st); [|discriminate].
    destruct (getitem item "Distance"); [|discriminate].
    destruct (getitem item "StartDate") as [sd|]; [|discriminate].
    destruct (parse_date parse sd); [|discriminate].
    destruct (getitem item "EndDate") as [ed|]; [|discriminate].
    destruct (parse_date parse ed); [|discriminate].
    destruct (getitem item "Name"); [|discriminate].
    intros [= <-]. now exists id. }
  destruct Hid as (id & Hid & Hdata). exists id. split; [exact Hid|].
  unfold _downloadActivity, bind, lift, ret, raise. rewrite Hdata.
  simpl getitem. cbv iota beta. rewrite Hauth. simpl as_str. cbv iota beta.
  unfold requests. rewrite Hreply.
  destruct (negb (status_code response =? 200)).
  - destruct ((status_code response =? 401) || (status_code response =? 403));
      reflexivity.
  - destruct (json_of response) as [activityData|]; [|reflexivity].
    destruct (getitem activityData "Comment"); [|reflexivity].
    destruct (getitem activityData "HasGps"); [|reflexivity].
    destruct (getitem activityData "IsPublic"); [|reflexivity].
    destruct (getitem activityData "Points") as [points|]; [|reflexivity].
    destruct (py_iter points) as [ps|]; [|reflexivity].
    destruct (waypoints_of_points parse None ps); reflexivity.
Qed.

End RoundTrip.


(** The sample item, listed and then downloaded. *)
Lemma listed_activity_is_fetched_by_id_witness :
  exists activity id,
    activity_of_item Sample.parse Sample.item = Ok activity
    /\ getitem Sample.item "Id" = Ok (VStr id)
    /\ sent (snd (_downloadActivity Sample.client_id Sample.client_secret
                    Sample.repr Sample.parse Sample.account activity
                    (Sample.fresh [(0, Sample.detail Sample.points)])))
       = app (sent (Sample.fresh [(0, Sample.detail Sample.points)]))
           [{| method := GET; url := BaseUrl ++ "/api/activity/" ++ id;
               headers := [("Authorization", "Bearer A")];
               data := VNone |}].
Proof.
  eexists.
  destruct (listed_activity_is_fetched_by_id Sample.client_id
              Sample.client_secret Sample.repr Sample.parse Sample.item _
              Sample.account
              (Sample.fresh [(0, Sample.detail Sample.points)])
              (Sample.fresh [(0, Sample.detail Sample.points)])
              [("Authorization", "Bearer A")] 0
              (Sample.detail Sample.points) [] eq_refl eq_refl eq_refl)
    as (id & Hid & Hsent).
  exists id. split; [reflexivity|]. split; [exact Hid | exact Hsent].
Defined.
